(** * FileConverter: Office documents to PDF

    A shallow embedding of [converter.py] (the function [convert_to_pdf]) and
    of [main.py] (the upload handler [convert_files_endpoint]), with the
    properties of the specification proved about them.

    Python strings are modelled as [string], the UTF-8 bytes of the text;
    the dictionaries of the module as association lists in their source
    order; the file system, the COM automation surface and the FastAPI
    background-task queue as an explicit state threaded through a small
    state-and-exception monad.  Which external calls fail is up to an
    environment that every theorem quantifies over.  Calls to the
    [logging] module have no effect on what is proved and are left out. *)

From Stdlib Require Import String Ascii List Bool ZArith Lia.
From Stdlib Require Import DecimalString Permutation Sorted.
Import ListNotations.

Open Scope string_scope.
Open Scope Z_scope.

(** ** Strings *)

Module Str.

(** [str.lower()] on the ASCII range.  Code points outside ASCII are kept as
    they are: none of them lowercases to a string over the letters of the
    supported extensions, so membership in the extension table agrees with
    Python's. *)
Definition lower_ascii (c : ascii) : ascii :=
  let n := N_of_ascii c in
  if ((65 <=? n) && (n <=? 90))%N then ascii_of_N (n + 32) else c.

Fixpoint lower (s : string) : string :=
  match s with
  | EmptyString => EmptyString
  | String c s' => String (lower_ascii c) (lower s')
  end.

(** [s[i:i+1]] *)
Definition char_at (s : string) (i : Z) : option ascii :=
  if i <? 0 then None else String.get (Z.to_nat i) s.

(** [s[:i]] and [s[i:]] for [0 <= i] *)
Definition slice_to (s : string) (i : Z) : string :=
  String.substring 0 (Z.to_nat i) s.

Definition slice_from (s : string) (i : Z) : string :=
  String.substring (Z.to_nat i) (String.length s - Z.to_nat i) s.

(** [s.rfind(c)]: the highest index of [c] in [s], [-1] when absent. *)
Fixpoint rfind_at (c : ascii) (s : string) (i : Z) : Z :=
  match s with
  | EmptyString => -1
  | String a s' =>
      let r := rfind_at c s' (i + 1) in
      if 0 <=? r then r else if Ascii.eqb a c then i else -1
  end.

Definition rfind (c : ascii) (s : string) : Z := rfind_at c s 0.

(** [sub in s] *)
Fixpoint contains (sub s : string) : bool :=
  String.prefix sub s ||
  match s with
  | EmptyString => false
  | String _ s' => contains sub s'
  end.

(** Two strings that differ at most in the case of their ASCII letters. *)
Fixpoint eq_nocase (s t : string) : bool :=
  match s, t with
  | EmptyString, EmptyString => true
  | String a s', String b t' =>
      Ascii.eqb (lower_ascii a) (lower_ascii b) && eq_nocase s' t'
  | _, _ => false
  end.

End Str.

(** ** [os.path.splitext]

    [genericpath._splitext], which both [ntpath] and [posixpath] call; the
    program drives COM and so runs under [ntpath], with separator [\] and
    alternative separator [/]. *)

Module genericpath.

(** The [while filenameIndex < dotIndex] loop: [true] when a character
    other than [extsep] stands between the last separator and the dot. *)
Fixpoint skip_leading_dots (p : string) (extsep : ascii)
         (filenameIndex : Z) (steps : nat) : bool :=
  match steps with
  | O => false
  | S k =>
      match Str.char_at p filenameIndex with
      | Some c =>
          if negb (Ascii.eqb c extsep) then true
          else skip_leading_dots p extsep (filenameIndex + 1) k
      | None => true
      end
  end.

Definition _splitext (p : string) (sep : ascii) (altsep : option ascii)
           (extsep : ascii) : string * string :=
  let sepIndex := Str.rfind sep p in
  let sepIndex :=
    match altsep with
    | Some a => Z.max sepIndex (Str.rfind a p)
    | None => sepIndex
    end in
  let dotIndex := Str.rfind extsep p in
  if (sepIndex <? dotIndex) &&
     skip_leading_dots p extsep (sepIndex + 1)
                       (Z.to_nat (dotIndex - (sepIndex + 1)))
  then (Str.slice_to p dotIndex, Str.slice_from p dotIndex)
  else (p, "").

End genericpath.

Module ntpath.

Definition splitext (p : string) : string * string :=
  genericpath._splitext p "\" (Some "/"%char) ".".

End ntpath.

(** ** Exceptions, external calls and the state of the world *)

(** The exception classes the program meets.  All of them derive from
    [Exception]; only [OSError] is caught by [except OSError]. *)
Inductive exn : Type :=
| OSError (msg : string)
| KeyError (key : string)
| COMError (msg : string)
| Exception (msg : string)
| HTTPException (status_code : Z) (detail : string).

(** [str(e)], as the f-strings of the program print an exception. *)
Definition str_exn (e : exn) : string :=
  match e with
  | OSError m => m
  | KeyError k => k
  | COMError m => m
  | Exception m => m
  | HTTPException _ d => d
  end.

Definition is_OSError (e : exn) : bool :=
  match e with OSError _ => true | _ => false end.

(** Calls into the automation surface.  [Open] stands for
    [Documents.Open], [Workbooks.Open] and [Presentations.Open], told apart
    by the ProgID of the application. *)
Inductive com_call : Type :=
| CreateObject (progid : string)
| SetVisible (progid : string) (visible : bool)
| Open (progid : string) (path : string)
| SaveAs (path : string) (FileFormat : Z)
| ExportAsFixedFormat (type : Z) (path : string) (Quality : Z)
| Close (progid : string) (SaveChanges : option bool)
| Quit (progid : string).

(** What the program did to the outside world, oldest event first.  An
    event carries the exception the call raised, [None] when it returned. *)
Inductive event : Type :=
| EvMakedirs (name : string) (exist_ok : bool) (raised : option exn)
| EvCom (c : com_call) (raised : option exn)
| EvWriteUpload (path : string) (raised : option exn)
| EvCloseUpload (filename : string).

(** The environment decides which external calls fail, and may look at
    everything that happened before.  [os.makedirs] fails with an [OSError];
    the automation surface and the copy of an upload fail with any
    exception. *)
Record environment : Type := {
  makedirs_error : list event -> string -> bool -> option string;
  com_error : list event -> com_call -> option exn;
  write_error : list event -> string -> option exn;
  uuid4 : list event -> string
}.

(** [fs]: the paths that exist; [log]: the external calls made so far;
    [background_tasks]: the directories handed to
    [background_tasks.add_task(cleanup_temp_dir, _)], in order. *)
Record world : Type := {
  fs : list string;
  log : list event;
  background_tasks : list string
}.

Definition emit (ev : event) (w : world) : world :=
  {| fs := fs w; log := log w ++ [ev]; background_tasks := background_tasks w |}.

Definition touch (p : string) (w : world) : world :=
  {| fs := p :: fs w; log := log w; background_tasks := background_tasks w |}.

Definition mem (p : string) (l : list string) : bool :=
  existsb (String.eqb p) l.

(** ** The monad: state with exceptions *)

Inductive outcome (A : Type) : Type :=
| Ret (a : A)
| Raise (e : exn).
Arguments Ret {A} a.
Arguments Raise {A} e.

Definition M (S A : Type) : Type := S -> outcome A * S.

Definition ret {S A} (a : A) : M S A := fun s => (Ret a, s).

Definition raise {S A} (e : exn) : M S A := fun s => (Raise e, s).

Definition bind {S A B} (m : M S A) (k : A -> M S B) : M S B :=
  fun s =>
    match m s with
    | (Ret a, s') => k a s'
    | (Raise e, s') => (Raise e, s')
    end.

Notation "x <- m ;; k" := (bind m (fun x => k))
  (at level 61, m at next level, right associativity).
Notation "m ;;; k" := (bind m (fun _ => k))
  (at level 61, right associativity).

(** [try: m  except <class> as e: h e] *)
Definition try_except {S A} (m : M S A) (catches : exn -> bool)
           (h : exn -> M S A) : M S A :=
  fun s =>
    match m s with
    | (Ret a, s') => (Ret a, s')
    | (Raise e, s') => if catches e then h e s' else (Raise e, s')
    end.

(** [try: m  finally: f]; a [finally] block without [return] keeps the
    outcome of [m] unless it raises itself. *)
Definition try_finally {S A} (m : M S A) (f : M S unit) : M S A :=
  fun s =>
    match m s with
    | (r, s') =>
        match f s' with
        | (Ret _, s'') => (r, s'')
        | (Raise e, s'') => (Raise e, s'')
        end
    end.

Definition any_Exception (e : exn) : bool := true.

(** ** Dictionaries *)

Fixpoint dict_get {V} (d : list (string * V)) (k : string) : option V :=
  match d with
  | [] => None
  | (k', v) :: d' => if String.eqb k k' then Some v else dict_get d' k
  end.

(** [k in d] *)
Definition dict_mem {V} (k : string) (d : list (string * V)) : bool :=
  match dict_get d k with Some _ => true | None => false end.

(** [d[k]], raising [KeyError] on a missing key. *)
Definition dict_item {S V} (d : list (string * V)) (k : string) : M S V :=
  match dict_get d k with
  | Some v => ret v
  | None => raise (KeyError k)
  end.

(** ** converter.py *)

Definition SUPPORTED_EXTENSIONS : list (string * string) :=
  [ (".doc", "Word.Application");
    (".docx", "Word.Application");
    (".xls", "Excel.Application");
    (".xlsx", "Excel.Application");
    (".ppt", "PowerPoint.Application");
    (".pptx", "PowerPoint.Application") ].

Definition PDF_FORMAT_CODE : list (string * Z) :=
  [ ("Word.Application", 17);
    ("Excel.Application", 0);
    ("PowerPoint.Application", 32) ].

(** The local variables [app] and [doc] of [convert_to_pdf], which the
    [finally] block reads whatever happened in the [try] block. *)
Record frame : Type := {
  outside : world;
  app : option string;
  doc : option string
}.

Definition set_app (a : option string) : M frame unit :=
  fun f => (Ret tt, {| outside := outside f; app := a; doc := doc f |}).

Definition set_doc (d : option string) : M frame unit :=
  fun f => (Ret tt, {| outside := outside f; app := app f; doc := d |}).

Definition get_app : M frame (option string) := fun f => (Ret (app f), f).

Definition get_doc : M frame (option string) := fun f => (Ret (doc f), f).

(** A function body with fresh locals [app = None], [doc = None]. *)
Definition with_locals {A} (m : M frame A) : M world A :=
  fun w =>
    match m {| outside := w; app := None; doc := None |} with
    | (r, f) => (r, outside f)
    end.

(** The file a successful export call leaves behind. *)
Definition written_by (c : com_call) : option string :=
  match c with
  | SaveAs path _ => Some path
  | ExportAsFixedFormat _ path _ => Some path
  | _ => None
  end.

Section Program.

Variable E : environment.

(** [os.path.dirname], [os.path.basename], [os.path.abspath] and
    [os.path.join] of the platform. *)
Variables dirname basename abspath : string -> string.
Variable join : string -> string -> string.

(** [os.path.exists] *)
Definition path_exists (p : string) : M world bool :=
  fun w => (Ret (mem p (fs w)), w).

(** [os.makedirs(name, exist_ok=...)] *)
Definition makedirs (name : string) (exist_ok : bool) : M world unit :=
  fun w =>
    match makedirs_error E (log w) name exist_ok with
    | Some msg =>
        (Raise (OSError msg),
         emit (EvMakedirs name exist_ok (Some (OSError msg))) w)
    | None => (Ret tt, touch name (emit (EvMakedirs name exist_ok None) w))
    end.

(** One call into the automation surface. *)
Definition com (c : com_call) : M frame unit :=
  fun f =>
    let r := com_error E (log (outside f)) c in
    let w := emit (EvCom c r) (outside f) in
    match r with
    | Some e => (Raise e, {| outside := w; app := app f; doc := doc f |})
    | None =>
        let w := match written_by c with Some p => touch p w | None => w end in
        (Ret tt, {| outside := w; app := app f; doc := doc f |})
    end.

(** The [try] block, lines 75 to 109. *)
Definition convert_try (input_path pdf_output_path app_name : string)
           (pdf_format : Z) : M frame (bool * string) :=
  com (CreateObject app_name) ;;;
  set_app (Some app_name) ;;;
  com (SetVisible app_name false) ;;;
  (if (app_name =? "Word.Application")%string then
     com (Open app_name (abspath input_path)) ;;;
     set_doc (Some input_path) ;;;
     com (SaveAs (abspath pdf_output_path) pdf_format)
   else if (app_name =? "Excel.Application")%string then
     com (Open app_name (abspath input_path)) ;;;
     set_doc (Some input_path) ;;;
     try_except
       (com (ExportAsFixedFormat 0 (abspath pdf_output_path) 0))
       any_Exception
       (fun export_error =>
          try_except
            (com (SaveAs (abspath pdf_output_path) 57))
            any_Exception
            (fun saveas_error =>
               raise (Exception
                 ("Excel PDF 변환 실패: ExportAsFixedFormat 및 SaveAs 모두 실패 - "
                    ++ str_exn export_error ++ "; " ++ str_exn saveas_error))))
   else if (app_name =? "PowerPoint.Application")%string then
     com (Open app_name (abspath input_path)) ;;;
     set_doc (Some input_path) ;;;
     com (SaveAs (abspath pdf_output_path) pdf_format)
   else ret tt) ;;;
  ret (true, pdf_output_path).

(** The [except Exception as e] block, lines 111 to 119. *)
Definition convert_except (input_path : string) (e : exn)
  : M frame (bool * string) :=
  ret (false, "오류: 변환 실패 (" ++ input_path ++ ") - " ++ str_exn e).

(** The [finally] block, lines 121 to 146. *)
Definition convert_finally (app_name : string) : M frame unit :=
  d <- get_doc ;;
  (match d with
   | Some _ =>
       try_except
         (if (app_name =? "Word.Application")%string then com (Close app_name (Some false))
          else if (app_name =? "Excel.Application")%string then com (Close app_name (Some false))
          else if (app_name =? "PowerPoint.Application")%string then com (Close app_name None)
          else ret tt)
         any_Exception (fun _ => ret tt)
   | None => ret tt
   end) ;;;
  a <- get_app ;;
  (match a with
   | Some _ => try_except (com (Quit app_name)) any_Exception (fun _ => ret tt)
   | None => ret tt
   end) ;;;
  set_app None ;;;
  set_doc None.

Definition convert_to_pdf (input_path output_path : string)
  : M world (bool * string) :=
  found <- path_exists input_path ;;
  if negb found then ret (false, "오류: 입력 파일 없음 - " ++ input_path)
  else
    let '(file_name, file_ext) := ntpath.splitext input_path in
    let file_ext := Str.lower file_ext in
    if negb (dict_mem file_ext SUPPORTED_EXTENSIONS)
    then ret (false, "오류: 지원하지 않는 파일 형식 - " ++ file_ext)
    else
      let output_dir := output_path in
      let output_dir :=
        if (output_dir =? "")%string then dirname input_path else output_dir in
      there <- path_exists output_dir ;;
      early <-
        (if negb there then
           try_except
             (makedirs output_dir false ;;; ret None)
             is_OSError
             (fun e => ret (Some (false, "오류: 출력 디렉토리 생성 실패 - " ++ str_exn e)))
         else ret None) ;;
      match early with
      | Some result => ret result
      | None =>
          let pdf_output_path := join output_dir (basename file_name ++ ".pdf") in
          app_name <- dict_item SUPPORTED_EXTENSIONS file_ext ;;
          pdf_format <- dict_item PDF_FORMAT_CODE app_name ;;
          with_locals
            (try_finally
               (try_except
                  (convert_try input_path pdf_output_path app_name pdf_format)
                  any_Exception
                  (convert_except input_path))
               (convert_finally app_name))
      end.

End Program.

(** ** main.py *)

Definition TEMP_UPLOAD_DIR : string := "temp_uploads".
Definition DEFAULT_OUTPUT_DIR : string := "converted_pdfs".

(** An uploaded file; its content plays no part in the control flow. *)
Record UploadFile : Type := { filename : string }.

(** The values of a result dictionary. *)
Inductive value : Type :=
| VStr (s : string)
| VBool (b : bool).

(** [{"filename": f, "success": b, "message": m}] *)
Definition result_dict (f : string) (b : bool) (m : string)
  : list (string * value) :=
  [ ("filename", VStr f); ("success", VBool b); ("message", VStr m) ].

(** [JSONResponse(content={"conversion_results": results})] *)
Record JSONResponse : Type := {
  conversion_results : list (list (string * value))
}.

(** [any(c in output_subdir for c in ['/', '\\', '..'])] *)
Definition has_traversal (output_subdir : string) : bool :=
  existsb (fun c => Str.contains c output_subdir) [ "/"; "\"; ".." ].

(** [if output_subdir:], for a form field that is a string. *)
Definition truthy (s : string) : bool := negb (s =? "")%string.

Definition add_task (temp_dir : string) : M world unit :=
  fun w =>
    (Ret tt,
     {| fs := fs w; log := log w;
        background_tasks := background_tasks w ++ [temp_dir] |}).

Section Endpoint.

Variable E : environment.
Variables dirname basename abspath : string -> string.
Variable join : string -> string -> string.

(** [str(uuid.uuid4())] *)
Definition new_job_id : M world string :=
  fun w => (Ret (uuid4 E (log w)), w).

(** [with open(path, "wb") as buffer: shutil.copyfileobj(file.file, buffer)] *)
Definition write_upload (path : string) : M world unit :=
  fun w =>
    let r := write_error E (log w) path in
    let w' := emit (EvWriteUpload path r) w in
    match r with
    | Some e => (Raise e, w')
    | None => (Ret tt, touch path w')
    end.

(** [await file.close()]: closing the spooled upload does not fail. *)
Definition close_upload (file : UploadFile) : M world unit :=
  fun w => (Ret tt, emit (EvCloseUpload (filename file)) w).

(** One turn of the loop over [files], lines 83 to 123; the value is
    [results] after the turn. *)
Definition handle_file (temp_job_dir final_output_dir : string)
           (results : list (list (string * value))) (file : UploadFile)
  : M world (list (list (string * value))) :=
  let original_filename := filename file in
  let file_ext := Str.lower (snd (ntpath.splitext original_filename)) in
  if negb (dict_mem file_ext SUPPORTED_EXTENSIONS)
  then
    ret (results ++
         [result_dict original_filename false
            ("오류: 지원하지 않는 파일 형식 (" ++ file_ext ++ ")")])%list
  else
    let temp_file_path := join temp_job_dir original_filename in
    skipped <-
      try_finally
        (try_except
           (write_upload temp_file_path ;;; ret None)
           any_Exception
           (fun e =>
              ret (Some (results ++
                         [result_dict original_filename false
                            ("오류: 파일 저장 실패 - " ++ str_exn e)])%list)))
        (close_upload file) ;;
    match skipped with
    | Some results' => ret results'
    | None =>
        r <- convert_to_pdf E dirname basename abspath join
               temp_file_path final_output_dir ;;
        let '(success, message) := r in
        ret (results ++ [result_dict original_filename success message])%list
    end.

(** [for file in files: ...] *)
Fixpoint for_each_file (temp_job_dir final_output_dir : string)
         (files : list UploadFile) (results : list (list (string * value)))
  : M world (list (list (string * value))) :=
  match files with
  | [] => ret results
  | file :: rest =>
      results' <- handle_file temp_job_dir final_output_dir results file ;;
      for_each_file temp_job_dir final_output_dir rest results'
  end.

Definition convert_files_endpoint (files : list UploadFile)
           (output_subdir : option string) : M world JSONResponse :=
  let results := [] in
  job_id <- new_job_id ;;
  let temp_job_dir := join TEMP_UPLOAD_DIR job_id in
  makedirs E temp_job_dir true ;;;
  final_output_dir <-
    (match output_subdir with
     | Some sub =>
         if truthy sub then
           if has_traversal sub then
             add_task temp_job_dir ;;;
             raise (HTTPException 400
                      "출력 하위 디렉토리 이름에 유효하지 않은 문자가 포함되어 있습니다.")
           else ret (join DEFAULT_OUTPUT_DIR sub)
         else ret DEFAULT_OUTPUT_DIR
     | None => ret DEFAULT_OUTPUT_DIR
     end) ;;
  makedirs E final_output_dir true ;;;
  results <- for_each_file temp_job_dir final_output_dir files results ;;
  add_task temp_job_dir ;;;
  ret {| conversion_results := results |}.

(** The guard of lines 66 to 72. *)
Definition rejected (output_subdir : option string) : bool :=
  match output_subdir with
  | Some sub => truthy sub && has_traversal sub
  | None => false
  end.

(** [final_output_dir], lines 73 to 75. *)
Definition final_dir (output_subdir : option string) : string :=
  match output_subdir with
  | Some sub => if truthy sub then join DEFAULT_OUTPUT_DIR sub
                else DEFAULT_OUTPUT_DIR
  | None => DEFAULT_OUTPUT_DIR
  end.

(** The record a turn of the loop adds for [file]. *)
Definition record_of (file : UploadFile) (record : list (string * value)) : Prop :=
  exists b msg, record = result_dict (filename file) b msg.

End Endpoint.

(** ** gui.py

    The class [PdfConverterApp].  What the user answers in a dialog (the
    files chosen, the rows selected, the folder chosen) is an argument of
    the handler that opens the dialog; the file-type filter that
    [select_files] hands to its dialog does not reach the state and is
    left out.  [tkinter] calls do not fail. *)

Module Gui.

(** [messagebox.showwarning], [showerror] and [showinfo] *)
Inductive dialog : Type :=
| showwarning (title message : string)
| showerror (title message : string)
| showinfo (title message : string).

(** [tk.NORMAL] and [tk.DISABLED] *)
Inductive widget_state : Type := NORMAL | DISABLED.

(** The value of the progress bar: [0], or the float [done / total * 100],
    kept as the two integers it is computed from. *)
Inductive progress : Type :=
| Zero
| Percent (done total : nat).

(** The callbacks handed to [master.after]. *)
Inductive callback : Type := enable_convert_button.

Record PdfConverterApp : Type := {
  input_files : list string;
  file_listbox : list string;
  output_dir : string;
  result_text : string;
  result_state : widget_state;
  progress_bar : progress;
  convert_button : widget_state;
  dialogs : list dialog;
  after_calls : list callback;
  desktop : world
}.

Definition newline : string := String (ascii_of_nat 10) "".

(** [str(n)] for a length or a counter. *)
Definition str_nat (n : nat) : string :=
  NilZero.string_of_uint (Nat.to_uint n).

Definition set_files (files listbox : list string) (a : PdfConverterApp)
  : PdfConverterApp :=
  {| input_files := files; file_listbox := listbox;
     output_dir := output_dir a; result_text := result_text a;
     result_state := result_state a; progress_bar := progress_bar a;
     convert_button := convert_button a; dialogs := dialogs a;
     after_calls := after_calls a; desktop := desktop a |}.

Definition set_output_dir (d : string) (a : PdfConverterApp)
  : PdfConverterApp :=
  {| input_files := input_files a; file_listbox := file_listbox a;
     output_dir := d; result_text := result_text a;
     result_state := result_state a; progress_bar := progress_bar a;
     convert_button := convert_button a; dialogs := dialogs a;
     after_calls := after_calls a; desktop := desktop a |}.

Definition set_text (text : string) (st : widget_state) (a : PdfConverterApp)
  : PdfConverterApp :=
  {| input_files := input_files a; file_listbox := file_listbox a;
     output_dir := output_dir a; result_text := text;
     result_state := st; progress_bar := progress_bar a;
     convert_button := convert_button a; dialogs := dialogs a;
     after_calls := after_calls a; desktop := desktop a |}.

(** [self.progress_bar['value'] = value] *)
Definition set_progress (value : progress) (a : PdfConverterApp)
  : PdfConverterApp :=
  {| input_files := input_files a; file_listbox := file_listbox a;
     output_dir := output_dir a; result_text := result_text a;
     result_state := result_state a; progress_bar := value;
     convert_button := convert_button a; dialogs := dialogs a;
     after_calls := after_calls a; desktop := desktop a |}.

(** [self.convert_button.config(state=st)] *)
Definition set_button (st : widget_state) (a : PdfConverterApp)
  : PdfConverterApp :=
  {| input_files := input_files a; file_listbox := file_listbox a;
     output_dir := output_dir a; result_text := result_text a;
     result_state := result_state a; progress_bar := progress_bar a;
     convert_button := st; dialogs := dialogs a;
     after_calls := after_calls a; desktop := desktop a |}.

Definition show (d : dialog) (a : PdfConverterApp) : PdfConverterApp :=
  {| input_files := input_files a; file_listbox := file_listbox a;
     output_dir := output_dir a; result_text := result_text a;
     result_state := result_state a; progress_bar := progress_bar a;
     convert_button := convert_button a; dialogs := dialogs a ++ [d];
     after_calls := after_calls a; desktop := desktop a |}.

(** [self.master.after(0, c)] *)
Definition after (c : callback) (a : PdfConverterApp) : PdfConverterApp :=
  {| input_files := input_files a; file_listbox := file_listbox a;
     output_dir := output_dir a; result_text := result_text a;
     result_state := result_state a; progress_bar := progress_bar a;
     convert_button := convert_button a; dialogs := dialogs a;
     after_calls := after_calls a ++ [c]; desktop := desktop a |}.

Definition set_desktop (w : world) (a : PdfConverterApp) : PdfConverterApp :=
  {| input_files := input_files a; file_listbox := file_listbox a;
     output_dir := output_dir a; result_text := result_text a;
     result_state := result_state a; progress_bar := progress_bar a;
     convert_button := convert_button a; dialogs := dialogs a;
     after_calls := after_calls a; desktop := w |}.

(** A computation on the world, run from the application. *)
Definition on_desktop {A} (m : M world A) : M PdfConverterApp A :=
  fun a => match m (desktop a) with (r, w) => (r, set_desktop w a) end.

(** A change of the widgets. *)
Definition widgets (f : PdfConverterApp -> PdfConverterApp)
  : M PdfConverterApp unit :=
  fun a => (Ret tt, f a).

(** [self.result_text.insert(tk.END, s)]: a disabled text widget ignores
    it. *)
Definition text_insert (s : string) (a : PdfConverterApp) : PdfConverterApp :=
  match result_state a with
  | NORMAL => set_text (result_text a ++ s) NORMAL a
  | DISABLED => a
  end.

(** [self.result_text.delete('1.0', tk.END)] *)
Definition text_delete_all (a : PdfConverterApp) : PdfConverterApp :=
  match result_state a with
  | NORMAL => set_text "" NORMAL a
  | DISABLED => a
  end.

(** [self.result_text.config(state=st)] *)
Definition text_config (st : widget_state) (a : PdfConverterApp)
  : PdfConverterApp :=
  set_text (result_text a) st a.

Definition update_result_text (message : string) (a : PdfConverterApp)
  : PdfConverterApp :=
  text_config DISABLED (text_insert (message ++ newline) (text_config NORMAL a)).

Definition _enable_convert_button (a : PdfConverterApp) : PdfConverterApp :=
  set_button NORMAL a.

(** [self.file_listbox.get(i)]: the empty string outside the list. *)
Definition listbox_get (i : nat) (rows : list string) : string :=
  nth i rows "".

(** [self.file_listbox.delete(i)]: nothing outside the list. *)
Fixpoint listbox_delete (i : nat) (rows : list string) : list string :=
  match rows, i with
  | [], _ => []
  | _ :: rest, O => rest
  | row :: rest, S k => row :: listbox_delete k rest
  end.

(** [l.remove(x)]: the list without the first [x]; [None] stands for the
    [ValueError] of a missing [x]. *)
Fixpoint list_remove (x : string) (l : list string) : option (list string) :=
  match l with
  | [] => None
  | y :: rest =>
      if (x =? y)%string then Some rest
      else match list_remove x rest with
           | Some rest' => Some (y :: rest')
           | None => None
           end
  end.

Definition clear_file_list (a : PdfConverterApp) : PdfConverterApp :=
  set_files [] [] a.

(** [directory] is the answer of [filedialog.askdirectory], empty when the
    dialog is cancelled. *)
Definition select_output_dir (directory : string) (a : PdfConverterApp)
  : PdfConverterApp :=
  if truthy directory then set_output_dir directory a else a.

Section Handlers.

Variable E : environment.
Variables dirname basename abspath : string -> string.
Variable join : string -> string -> string.

(** The loop of lines 106 to 109. *)
Fixpoint add_selected (selected_files : list string) (a : PdfConverterApp)
  : PdfConverterApp :=
  match selected_files with
  | [] => a
  | file_path :: rest =>
      add_selected rest
        (if negb (mem file_path (input_files a))
         then set_files (input_files a ++ [file_path])
                        (file_listbox a ++ [basename file_path]) a
         else a)
  end.

(** [selected_files] is the answer of [filedialog.askopenfilenames]. *)
Definition select_files (selected_files : list string) (a : PdfConverterApp)
  : PdfConverterApp :=
  match selected_files with
  | [] => a
  | _ :: _ => add_selected selected_files a
  end.

(** One turn of the loop of lines 120 to 134. *)
Definition remove_row (i : nat) : M PdfConverterApp unit :=
  fun a =>
    let file_name_to_remove := listbox_get i (file_listbox a) in
    let original_path_to_remove :=
      find (fun path => (basename path =? file_name_to_remove)%string)
           (input_files a) in
    let removed :=
      match original_path_to_remove with
      | Some path =>
          if truthy path then
            match list_remove path (input_files a) with
            | Some files => Ret files
            | None => Raise (Exception "list.remove(x): x not in list")
            end
          else Ret (input_files a)
      | None => Ret (input_files a)
      end in
    match removed with
    | Ret files =>
        (Ret tt, set_files files (listbox_delete i (file_listbox a)) a)
    | Raise e => (Raise e, a)
    end.

Fixpoint remove_rows (indices : list nat) : M PdfConverterApp unit :=
  match indices with
  | [] => ret tt
  | i :: rest => remove_row i ;;; remove_rows rest
  end.

(** [selected_indices] is the answer of [self.file_listbox.curselection()]. *)
Definition remove_selected_files (selected_indices : list nat)
  : M PdfConverterApp unit :=
  match selected_indices with
  | [] =>
      widgets (show (showwarning "선택 없음" "제거할 파일을 목록에서 선택해주세요."))
  | _ :: _ => remove_rows (rev selected_indices)
  end.

(** The value is the pair of arguments of the thread that is started,
    [None] when the handler returns before it starts one. *)
Definition start_conversion_thread
  : M PdfConverterApp (option (list string * string)) :=
  fun a =>
    match input_files a with
    | [] =>
        (Ret None,
         show (showwarning "입력 없음" "변환할 파일을 먼저 추가해주세요.") a)
    | _ :: _ =>
        let output_dir := output_dir a in
        if negb (truthy output_dir) then
          (Ret None,
           show (showwarning "출력 없음" "PDF를 저장할 폴더를 지정해주세요.") a)
        else
          (there <- on_desktop (path_exists output_dir) ;;
           stop <-
             (if negb there then
                try_except
                  (on_desktop (makedirs E output_dir false) ;;;
                   widgets (update_result_text
                              ("출력 폴더 생성: " ++ output_dir)) ;;;
                   ret false)
                  is_OSError
                  (fun e =>
                     widgets (show (showerror "폴더 생성 오류"
                                      ("출력 폴더를 생성할 수 없습니다: "
                                         ++ str_exn e))) ;;;
                     ret true)
              else ret false) ;;
           if stop : bool then ret None
           else
             widgets (set_button DISABLED) ;;;
             widgets (text_config NORMAL) ;;;
             widgets text_delete_all ;;;
             widgets (text_config DISABLED) ;;;
             widgets (update_result_text "--- 변환 시작 ---") ;;;
             files <- (fun a' => (Ret (input_files a'), a')) ;;
             ret (Some (files, output_dir))) a
    end.

(** The loop of lines 207 to 226; [i] counts from 0, and the value is the
    pair of [success_count] and [fail_count]. *)
Fixpoint convert_each (output_directory : string) (total_files : nat)
         (i : nat) (files : list string) (counts : nat * nat)
  : M PdfConverterApp (nat * nat) :=
  match files with
  | [] => ret counts
  | input_path :: rest =>
      let base_name := basename input_path in
      widgets (update_result_text
                 ("[" ++ str_nat (i + 1) ++ "/" ++ str_nat total_files
                      ++ "] '" ++ base_name ++ "' 변환 중...")) ;;;
      r <- on_desktop (convert_to_pdf E dirname basename abspath join
                                      input_path output_directory) ;;
      let '(success, message) := r in
      counts' <-
        (if success : bool then
           widgets (update_result_text ("  -> 성공: " ++ message)) ;;;
           ret (S (fst counts), snd counts)
         else
           widgets (update_result_text ("  -> 실패: " ++ message)) ;;;
           ret (fst counts, S (snd counts))) ;;
      widgets (set_progress (Percent (i + 1) total_files)) ;;;
      convert_each output_directory total_files (S i) rest counts'
  end.

Definition completion_message (total_files success_count fail_count : nat)
  : string :=
  "--- 변환 완료 --- 총 " ++ str_nat total_files ++ "개 중 "
    ++ str_nat success_count ++ "개 성공, " ++ str_nat fail_count ++ "개 실패".

Definition _run_conversion (files_to_convert : list string)
           (output_directory : string) : M PdfConverterApp unit :=
  let total_files := length files_to_convert in
  widgets (set_progress Zero) ;;;
  counts <- convert_each output_directory total_files 0 files_to_convert
                         (0%nat, 0%nat) ;;
  let completion_message :=
    completion_message total_files (fst counts) (snd counts) in
  widgets (update_result_text completion_message) ;;;
  widgets (show (showinfo "변환 완료" completion_message)) ;;;
  widgets (after enable_convert_button).

End Handlers.

(** The list box shows the base names of the queued files, in some order
    while names repeat, and no file is queued twice. *)
Definition consistent (basename : string -> string) (a : PdfConverterApp)
  : Prop :=
  NoDup (input_files a) /\
  Permutation (file_listbox a) (map basename (input_files a)).

End Gui.

(** ** Sample platform and environments

    Used by the examples below only.  The path functions agree with
    [ntpath] on the relative, drive-less paths of the examples; the current
    directory is [C:\srv]. *)

Module Sample.

Definition last_sep (p : string) : Z :=
  Z.max (Str.rfind "\" p) (Str.rfind "/" p).

Definition basename (p : string) : string := Str.slice_from p (last_sep p + 1).

Definition dirname (p : string) : string := Str.slice_to p (last_sep p).

Definition join (a b : string) : string := a ++ "\" ++ b.

Definition abspath (p : string) : string := "C:\srv\" ++ p.

(** Nothing fails. *)
Definition quiet : environment :=
  {| makedirs_error := fun _ _ _ => None;
     com_error := fun _ _ => None;
     write_error := fun _ _ => None;
     uuid4 := fun _ => "0b0e7f0c" |}.


(** [os.makedirs] raises on the directories selected by [failing]. *)
Definition makedirs_failing (msg : string) (failing : string -> bool)
  : environment :=
  {| makedirs_error := fun _ name _ =>
       if failing name then Some msg else None;
     com_error := fun _ _ => None;
     write_error := fun _ _ => None;
     uuid4 := fun _ => "0b0e7f0c" |}.



(** No directory can be created. *)
Definition read_only : environment :=
  makedirs_failing "[WinError 5]" (fun _ => true).

(** [converted_pdfs\report.pdf] is a file, left by an earlier conversion
    of [report.docx]: [os.makedirs] raises [FileExistsError] on it, also
    with [exist_ok=True]. *)
Definition report_is_a_file : environment :=
  makedirs_failing "[WinError 183]"
    (fun name => (name =? "converted_pdfs\report.pdf")%string).

Definition empty_world : world :=
  {| fs := []; log := []; background_tasks := [] |}.

(** A world in which the given paths exist. *)
Definition world_with (paths : list string) : world :=
  {| fs := paths; log := []; background_tasks := [] |}.

Definition convert (E : environment) :=
  convert_to_pdf E dirname basename abspath join.

Definition endpoint (E : environment) :=
  convert_files_endpoint E dirname basename abspath join.

End Sample.

(** An environment in which the copy of every upload raises. *)
Module Faults.


End Faults.

(** ** Invariants of the window *)

(** The queue and the list box between two turns of the removal loop. *)
Definition in_step (basename : string -> string) (a : Gui.PdfConverterApp)
  : Prop :=
  Gui.consistent basename a /\ ~ In "" (Gui.input_files a).

(** A list of rows, each below the one before and the first below [n]. *)
Fixpoint descending_below (n : nat) (rows : list nat) : Prop :=
  match rows with
  | [] => True
  | i :: rest => (i < n)%nat /\ descending_below i rest
  end.

(** The parts of the application that a conversion run leaves alone. *)
Definition same_controls (a a' : Gui.PdfConverterApp) : Prop :=
  Gui.input_files a' = Gui.input_files a /\
  Gui.file_listbox a' = Gui.file_listbox a /\
  Gui.output_dir a' = Gui.output_dir a /\
  Gui.convert_button a' = Gui.convert_button a /\
  Gui.dialogs a' = Gui.dialogs a /\
  Gui.after_calls a' = Gui.after_calls a.

(** The window as [__init__] leaves it, on a given desktop. *)
Module GuiSample.

Definition fresh (w : world) : Gui.PdfConverterApp :=
  {| Gui.input_files := [];
     Gui.file_listbox := [];
     Gui.output_dir := "C:\Users\kim\Documents\ConvertedPDFs";
     Gui.result_text := "";
     Gui.result_state := Gui.DISABLED;
     Gui.progress_bar := Gui.Zero;
     Gui.convert_button := Gui.NORMAL;
     Gui.dialogs := [];
     Gui.after_calls := [];
     Gui.desktop := w |}.

(** The window with [files] queued and the output folder set to [out]. *)
Definition queued (files : list string) (out : string) (w : world)
  : Gui.PdfConverterApp :=
  Gui.select_output_dir out (Gui.select_files Sample.basename files (fresh w)).

End GuiSample.

(** ** Properties of traces *)

Module Trace.

Definition is_com (ev : event) : bool :=
  match ev with EvCom _ _ => true | _ => false end.

Definition is_write_upload (ev : event) : bool :=
  match ev with EvWriteUpload _ _ => true | _ => false end.

(** [CreateObject] returned an application object. *)
Definition created_app (ev : event) : bool :=
  match ev with EvCom (CreateObject _) None => true | _ => false end.

(** [Open] returned a document. *)
Definition opened_doc (ev : event) : bool :=
  match ev with EvCom (Open _ _) None => true | _ => false end.

Definition close_attempt (ev : event) : bool :=
  match ev with EvCom (Close _ _) _ => true | _ => false end.

Definition quit_attempt (ev : event) : bool :=
  match ev with EvCom (Quit _) _ => true | _ => false end.

(** A call that writes the PDF: [SaveAs] or [ExportAsFixedFormat]. *)
Definition is_export (ev : event) : bool :=
  match ev with
  | EvCom c _ => match written_by c with Some _ => true | None => false end
  | _ => false
  end.

(** [os.makedirs(d)] returned. *)
Definition made_dir (d : string) (ev : event) : bool :=
  match ev with
  | EvMakedirs name _ None => (name =? d)%string
  | _ => false
  end.

Definition makedirs_raised (ev : event) : bool :=
  match ev with EvMakedirs _ _ (Some _) => true | _ => false end.

(** Every event with [p] is followed, later, by an event with [q]. *)
Definition followed_by (p q : event -> bool) (evs : list event) : Prop :=
  forall pre ev post,
    evs = (pre ++ ev :: post)%list -> p ev = true ->
    exists ev', In ev' post /\ q ev' = true.

Fixpoint followed_byb (p q : event -> bool) (evs : list event) : bool :=
  match evs with
  | [] => true
  | ev :: rest =>
      (if p ev then existsb q rest else true) && followed_byb p q rest
  end.

(** Every event with [p] comes after an event with [q]. *)
Definition preceded_by (p q : event -> bool) (evs : list event) : Prop :=
  forall pre ev post,
    evs = (pre ++ ev :: post)%list -> p ev = true ->
    exists ev', In ev' pre /\ q ev' = true.

Fixpoint preceded_byb (p q : event -> bool) (seen : bool)
         (evs : list event) : bool :=
  match evs with
  | [] => true
  | ev :: rest =>
      (if p ev then seen else true) && preceded_byb p q (seen || q ev) rest
  end.



(** No event has [p]. *)
Definition never (p : event -> bool) (evs : list event) : Prop :=
  forall ev, In ev evs -> p ev = false.

End Trace.

(** ** The records of a response *)

Section Records.

Variable basename : string -> string.
Variable join : string -> string -> string.

(** The extension of an upload is not a key of [SUPPORTED_EXTENSIONS]. *)
Definition unsupported (file : UploadFile) : Prop :=
  dict_mem (Str.lower (snd (ntpath.splitext (filename file))))
           SUPPORTED_EXTENSIONS = false.

(** The path of the PDF made from the upload [file] of a request. *)
Definition pdf_of_upload (temp_job_dir final_output_dir : string)
           (file : UploadFile) : string :=
  join final_output_dir
       (basename (fst (ntpath.splitext (join temp_job_dir (filename file))))
          ++ ".pdf").

(** The record of [file]: its name, and on success the path of its PDF. *)
Definition record_for (temp_job_dir final_output_dir : string)
           (file : UploadFile) (record : list (string * value)) : Prop :=
  exists b msg,
    record = result_dict (filename file) b msg /\
    (final_output_dir <> "" -> b = true ->
     msg = pdf_of_upload temp_job_dir final_output_dir file) /\
    (unsupported file -> b = false).

End Records.

(** ** The order of calls *)

Module Order.

Definition is_makedirs (ev : event) : bool :=
  match ev with EvMakedirs _ _ _ => true | _ => false end.

(** [app.Visible = False] returned. *)
Definition hidden (ev : event) : bool :=
  match ev with EvCom (SetVisible _ false) None => true | _ => false end.

Definition create_attempt (ev : event) : bool :=
  match ev with EvCom (CreateObject _) _ => true | _ => false end.

Definition open_attempt (ev : event) : bool :=
  match ev with EvCom (Open _ _) _ => true | _ => false end.

(** A call on the application object or on its document. *)
Definition uses_app (ev : event) : bool :=
  match ev with
  | EvCom (CreateObject _) _ => false
  | EvCom _ _ => true
  | _ => false
  end.

(** The upload was copied to the job directory. *)
Definition upload_saved (ev : event) : bool :=
  match ev with EvWriteUpload _ None => true | _ => false end.

Definition is_close_upload (ev : event) : bool :=
  match ev with EvCloseUpload _ => true | _ => false end.

(** How many events have [p]. *)
Definition count (p : event -> bool) (evs : list event) : nat :=
  length (filter p evs).

End Order.

(** * Properties *)

(** ** Strings and paths *)

Example splitext_docx :
  ntpath.splitext "D:\path\to\your\test.docx" = ("D:\path\to\your\test", ".docx").
Proof. reflexivity. Qed.

Example splitext_hidden : ntpath.splitext "dir/.bashrc" = ("dir/.bashrc", "").
Proof. reflexivity. Qed.

Example splitext_dots : ntpath.splitext "a.b/..x.PDF" = ("a.b/..x", ".PDF").
Proof. reflexivity. Qed.

Example lower_korean : Str.lower ".DocX" = ".docx" /\ Str.lower "보고서.XLS" = "보고서.xls".
Proof. split; reflexivity. Qed.






Lemma eq_nocase_lower (s t : string) :
  Str.eq_nocase s t = true -> Str.lower s = Str.lower t.
Proof.
  revert t; induction s as [|a s IH]; intros [|b t]; cbn; try discriminate.
  - reflexivity.
  - intros H. apply andb_true_iff in H as [Hc Hs].
    apply Ascii.eqb_eq in Hc. rewrite Hc. f_equal. now apply IH.
Qed.

Lemma prefix_append (c s : string) : String.prefix c (c ++ s) = true.
Proof.
  induction c as [|a c IH]; cbn.
  - now destruct s.
  - destruct (ascii_dec a a) as [_ | Hne]; [exact IH | now elim Hne].
Qed.

Lemma contains_prefix (c s : string) :
  String.prefix c s = true -> Str.contains c s = true.
Proof. destruct s; cbn [Str.contains]; intros ->; reflexivity. Qed.

(** [Str.contains] finds every occurrence of a substring. *)
Lemma contains_complete (c pre post : string) :
  Str.contains c (pre ++ c ++ post) = true.
Proof.
  induction pre as [|a pre IH].
  - change ("" ++ c ++ post) with (c ++ post).
    apply contains_prefix, prefix_append.
  - cbn [String.append Str.contains]. rewrite IH. apply orb_true_r.
Qed.

(** ** Dictionaries *)

(** Every supported extension selects an application that has a format
    code: the two subscripts of lines 68 and 69 never raise [KeyError]. *)
Lemma supported_app (ext : string) :
  dict_mem ext SUPPORTED_EXTENSIONS = true ->
  exists app_name pdf_format,
    dict_get SUPPORTED_EXTENSIONS ext = Some app_name /\
    dict_get PDF_FORMAT_CODE app_name = Some pdf_format /\
    ((app_name = "Word.Application" /\ pdf_format = 17) \/
     (app_name = "Excel.Application" /\ pdf_format = 0) \/
     (app_name = "PowerPoint.Application" /\ pdf_format = 32)).
Proof.
  unfold dict_mem, SUPPORTED_EXTENSIONS. cbn [dict_get].
  repeat match goal with
         | |- context [(ext =? ?k)%string] => destruct (ext =? k)%string
         end;
    try discriminate; intros _; do 2 eexists;
    (split; [reflexivity|]); (split; [reflexivity|]); tauto.
Qed.

(** The keys of the extension table are lowercase. *)
Lemma supported_keys_lower (e : string) :
  In e (map fst SUPPORTED_EXTENSIONS) ->
  Str.lower e = e /\ dict_mem e SUPPORTED_EXTENSIONS = true.
Proof.
  cbn. intros H.
  repeat destruct H as [<- | H]; try (split; reflexivity). contradiction.
Qed.

(** ** Traces *)

Lemma followed_byb_sound (p q : event -> bool) (evs : list event) :
  Trace.followed_byb p q evs = true -> Trace.followed_by p q evs.
Proof.
  induction evs as [|x evs IH]; intros H pre ev post Heq Hp.
  - destruct pre; discriminate.
  - cbn in H. apply andb_true_iff in H as [Hx Hrest].
    destruct pre as [|y pre]; cbn in Heq; injection Heq as -> ->.
    + rewrite Hp in Hx. apply existsb_exists in Hx as (ev' & Hin & Hq). eauto.
    + eapply IH; eauto.
Qed.

Lemma preceded_byb_sound (p q : event -> bool) (evs : list event) :
  forall seen pre ev post,
    Trace.preceded_byb p q seen evs = true ->
    evs = (pre ++ ev :: post)%list -> p ev = true ->
    seen = true \/ exists ev', In ev' pre /\ q ev' = true.
Proof.
  induction evs as [|x evs IH]; intros seen pre ev post H Heq Hp.
  - destruct pre; discriminate.
  - cbn in H. apply andb_true_iff in H as [Hx Hrest].
    destruct pre as [|y pre]; cbn in Heq; injection Heq as -> ->.
    + rewrite Hp in Hx. now left.
    + destruct (IH _ _ _ _ Hrest eq_refl Hp) as [Hseen | (ev' & Hin & Hq)].
      * apply orb_true_iff in Hseen as [-> | Hq]; [now left | right].
        exists y. split; [now left | exact Hq].
      * right. exists ev'. split; [now right | exact Hq].
Qed.

Lemma preceded_by_checked (p q : event -> bool) (evs : list event) :
  Trace.preceded_byb p q false evs = true -> Trace.preceded_by p q evs.
Proof.
  intros H pre ev post Heq Hp.
  destruct (preceded_byb_sound _ _ _ _ _ _ _ H Heq Hp) as [Hf | Hex];
    [discriminate | exact Hex].
Qed.

Lemma never_checked (p : event -> bool) (evs : list event) :
  forallb (fun ev => negb (p ev)) evs = true -> Trace.never p evs.
Proof.
  intros H ev Hin. rewrite forallb_forall in H.
  apply H in Hin. now apply negb_true_iff.
Qed.

Lemma preceded_by_never (p q : event -> bool) (evs : list event) :
  Trace.never p evs -> Trace.preceded_by p q evs.
Proof.
  intros Hnever pre ev post -> Hp.
  rewrite (Hnever ev) in Hp; [discriminate |].
  apply in_or_app. right. now left.
Qed.

Lemma preceded_by_after (p q : event -> bool) (x : event)
      (pre rest : list event) :
  q x = true -> p x = false -> Trace.never p pre ->
  Trace.preceded_by p q (pre ++ x :: rest).
Proof.
  intros Hq Hx. induction pre as [| a pre IH]; intros Hnever pre' ev post Heq Hp.
  - destruct pre' as [| y pre']; cbn in Heq; injection Heq as -> Hrest.
    + congruence.
    + exists y. split; [now left | exact Hq].
  - destruct pre' as [| y pre']; cbn in Heq; injection Heq as -> Hrest.
    + rewrite (Hnever ev (or_introl eq_refl)) in Hp. discriminate.
    + destruct (IH (fun e He => Hnever e (or_intror He)) pre' ev post Hrest Hp)
        as (ev' & Hin & Hq').
      exists ev'. split; [now right | exact Hq'].
Qed.

(** ** [convert_to_pdf] *)

Ltac unfold_run :=
  unfold convert_to_pdf, convert_try, convert_except, convert_finally,
    with_locals, try_finally, try_except, bind, ret, raise, com, makedirs,
    path_exists, set_app, set_doc, get_app, get_doc, dict_item, emit, touch,
    any_Exception in *.

(** Ask the environment, or the file system, for the answer the run is
    waiting for. *)
Ltac ask_env :=
  match goal with
  | |- context [com_error ?E ?l ?c] => destruct (com_error E l c) eqn:?
  | |- context [makedirs_error ?E ?l ?n ?b] =>
      destruct (makedirs_error E l n b) eqn:?
  | |- context [mem ?p ?l] => destruct (mem p l) eqn:?
  end.

Ltac run_to_end := repeat (cbn -[String.append]; try ask_env).

(** The events of a finished run, as a list appended to the old log. *)
Ltac read_log :=
  cbn -[String.append];
  first [ rewrite <- ?app_assoc; cbn [List.app]; reflexivity
        | symmetry; apply app_nil_r ].


(** An event of a kind that the finished run does not contain. *)
Ltac absent_event :=
  match goal with
  | Hin : In ?ev ?evs, Hp : ?p ?ev = true |- _ =>
      rewrite (never_checked p evs eq_refl ev Hin) in Hp; discriminate
  end.

Section ConvertToPdf.

Variable E : environment.
Variables dirname basename abspath : string -> string.
Variable join : string -> string -> string.

Abbreviation convert := (convert_to_pdf E dirname basename abspath join).

(** The run of [convert_to_pdf] up to the [try] block: the two early
    returns, then the three applications. *)
Ltac by_cases input_path w :=
  unfold convert_to_pdf;
  destruct (ntpath.splitext input_path) as [file_name file_ext] eqn:Hsplit;
  cbn [fst snd];
  unfold bind at 1, path_exists at 1;
  let Hsup := fresh "Hsup" in
  destruct (mem input_path (fs w)) eqn:Hfound; cbn [negb];
  [ destruct (dict_mem (Str.lower file_ext) SUPPORTED_EXTENSIONS) eqn:Hsup;
    cbn [negb];
    [ let app_name := fresh "app_name" in
      let pdf_format := fresh "pdf_format" in
      let Ha := fresh "Ha" in
      destruct (supported_app _ Hsup)
        as (app_name & pdf_format & Ha & _ & [[-> ->]|[[-> ->]|[-> ->]]]);
      unfold_run; rewrite Ha; run_to_end
    | unfold ret ]
  | unfold ret ].

(** [convert_to_pdf] returns, adds to the log and leaves the queue of
    background tasks alone. *)
Lemma convert_returns (input_path output_path : string) (w : world) :
  exists b msg w' evs,
    convert input_path output_path w = (Ret (b, msg), w') /\
    log w' = (log w ++ evs)%list /\
    background_tasks w' = background_tasks w.
Proof.
  by_cases input_path w;
    (do 4 eexists; split; [reflexivity |]; split; [read_log | reflexivity]).
Qed.

(** An existing input with a supported extension gets past both early
    returns: the run goes on to create the output directory or, when that
    exists, the application object. *)
Lemma convert_accepts_supported (input_path output_path : string) (w : world) :
  mem input_path (fs w) = true ->
  dict_mem (Str.lower (snd (ntpath.splitext input_path)))
           SUPPORTED_EXTENSIONS = true ->
  exists r w' ev evs app_name,
    convert input_path output_path w = (r, w') /\
    log w' = (log w ++ ev :: evs)%list /\
    dict_get SUPPORTED_EXTENSIONS
             (Str.lower (snd (ntpath.splitext input_path))) = Some app_name /\
    ((exists raised,
         ev = EvMakedirs (if (output_path =? "")%string
                          then dirname input_path else output_path)
                         false raised) \/
     (exists raised, ev = EvCom (CreateObject app_name) raised)).
Proof.
  intros Hthere Hsupported. revert Hsupported.
  by_cases input_path w; intros Hsupported; try congruence;
    (do 5 eexists; split; [reflexivity |]; split; [read_log |]);
    (split; [reflexivity |]); eauto.
Qed.


(** C2, the conversion function: an input whose lowercased extension is not
    a key of [SUPPORTED_EXTENSIONS] makes [convert_to_pdf] return [False]
    and leaves the world as it was: no application object is created and
    no other external call is made. *)
Lemma convert_rejects_unsupported (input_path output_path : string) (w : world) :
  dict_mem (Str.lower (snd (ntpath.splitext input_path)))
           SUPPORTED_EXTENSIONS = false ->
  exists msg, convert input_path output_path w = (Ret (false, msg), w).
Proof.
  intros Hno. unfold convert_to_pdf.
  destruct (ntpath.splitext input_path) as [file_name file_ext].
  cbn [snd] in Hno. unfold bind, path_exists, ret.
  destruct (mem input_path (fs w)); cbn [negb];
    [rewrite Hno; cbn [negb] |]; eauto.
Qed.




(** C4: whenever [Open] returned a document, [Close] is attempted later in
    the same run, and whenever [CreateObject] returned an application,
    [Quit] is attempted later, whatever the outcome of the conversion and
    whichever calls raised. *)
Theorem release_always (input_path output_path : string) (w : world) :
  exists evs,
    log (snd (convert input_path output_path w)) = (log w ++ evs)%list /\
    Trace.followed_by Trace.opened_doc Trace.close_attempt evs /\
    Trace.followed_by Trace.created_app Trace.quit_attempt evs.
Proof.
  by_cases input_path w;
    (eexists; split; [read_log |]);
    split; apply followed_byb_sound; reflexivity.
Qed.

(** *** Further properties of a run *)

(** X2: the calls of a run come in a fixed order.  No document is opened
    before [Visible = False] returned; nothing is written before [Open]
    returned a document; nothing is closed that was not opened; no call
    uses an application that [CreateObject] did not return; and once an
    application was created, [Quit] is the last call of the run. *)
Theorem calls_in_order (input_path output_path : string) (w : world) :
  exists evs,
    log (snd (convert input_path output_path w)) = (log w ++ evs)%list /\
    Trace.preceded_by Order.open_attempt Order.hidden evs /\
    Trace.preceded_by Trace.is_export Trace.opened_doc evs /\
    Trace.preceded_by Trace.close_attempt Trace.opened_doc evs /\
    Trace.preceded_by Order.uses_app Trace.created_app evs /\
    (existsb Trace.created_app evs = true ->
     exists pre ev, evs = (pre ++ [ev])%list /\ Trace.quit_attempt ev = true).
Proof.
  by_cases input_path w;
    (eexists; split; [read_log |]);
    repeat (split; [apply preceded_by_checked; reflexivity |]);
    intros Hc; try discriminate;
    match goal with
    | |- exists pre ev, ?l = _ /\ _ =>
        exists (removelast l), (last l (EvCloseUpload ""));
        split; reflexivity
    end.
Qed.

(** X3: a run creates at most one application and opens at most one
    document, and it releases exactly what it holds: there are as many
    [Close] calls as documents returned by [Open], and as many [Quit]
    calls as applications returned by [CreateObject]. *)
Theorem release_exactly_once (input_path output_path : string) (w : world) :
  exists evs,
    log (snd (convert input_path output_path w)) = (log w ++ evs)%list /\
    (Order.count Order.create_attempt evs <= 1)%nat /\
    (Order.count Order.open_attempt evs <= 1)%nat /\
    Order.count Trace.close_attempt evs = Order.count Trace.opened_doc evs /\
    Order.count Trace.quit_attempt evs = Order.count Trace.created_app evs.
Proof.
  by_cases input_path w;
    (eexists; split; [read_log |]);
    cbn; repeat split; lia.
Qed.


(** X4: [convert_to_pdf] creates a directory only when the output directory
    is absent, at most one, and never for an input it rejects: with the
    output directory present there is no [os.makedirs] call at all. *)
Theorem makedirs_only_if_absent (input_path output_path : string) (w : world) :
  let output_dir :=
    if (output_path =? "")%string then dirname input_path else output_path in
  exists evs,
    log (snd (convert input_path output_path w)) = (log w ++ evs)%list /\
    (Order.count Order.is_makedirs evs <= 1)%nat /\
    (forall ev, In ev evs -> Order.is_makedirs ev = true ->
                exists raised, ev = EvMakedirs output_dir false raised) /\
    (mem output_dir (fs w) = true \/
     mem input_path (fs w) = false \/
     dict_mem (Str.lower (snd (ntpath.splitext input_path)))
              SUPPORTED_EXTENSIONS = false ->
     Trace.never Order.is_makedirs evs).
Proof.
  intros output_dir; subst output_dir.
  by_cases input_path w;
    (eexists; split; [read_log |]);
    (split; [cbn; lia |]);
    (split;
     [ intros ev Hin Hm;
       first [ absent_event
             | cbn in Hin;
               repeat (destruct Hin as [<- | Hin]; try discriminate;
                       eauto); contradiction ] |]);
    intros Hor;
    first [ apply never_checked; reflexivity
          | destruct Hor as [Hor | [Hor | Hor]]; congruence ].
Qed.

(** A run loses no file, calls nothing but [os.makedirs] and the automation
    surface, reports the path of the PDF on success, and with the output
    directory present calls [os.makedirs] not once. *)
Lemma convert_in_existing_dir (input_path output_path : string) (w : world) :
  exists b msg w' evs,
    convert input_path output_path w = (Ret (b, msg), w') /\
    log w' = (log w ++ evs)%list /\
    background_tasks w' = background_tasks w /\
    (forall p, mem p (fs w) = true -> mem p (fs w') = true) /\
    forallb (fun ev => Order.is_makedirs ev || Trace.is_com ev) evs = true /\
    (b = true ->
     msg = join (if (output_path =? "")%string
                 then dirname input_path else output_path)
                (basename (fst (ntpath.splitext input_path)) ++ ".pdf")) /\
    (mem (if (output_path =? "")%string
          then dirname input_path else output_path) (fs w) = true ->
     Trace.never Order.is_makedirs evs).
Proof.
  by_cases input_path w;
    (do 4 eexists; split; [reflexivity |]; split; [read_log |]);
    (split; [reflexivity |]);
    (split;
     [ intros p Hp; unfold mem in Hp |- *; cbn;
       rewrite ?Hp, ?orb_true_r; reflexivity |]);
    (split; [reflexivity |]);
    (split; [intros Hb; first [reflexivity | discriminate] |]);
    intros Hthere;
    first [ apply never_checked; reflexivity | congruence ].
Qed.

End ConvertToPdf.

(** ** [convert_files_endpoint] *)

Lemma traversal_detected (c pre post : string) :
  In c [ "/"; "\"; ".." ] ->
  has_traversal (pre ++ c ++ post) = true /\ truthy (pre ++ c ++ post) = true.
Proof.
  intros Hc. split.
  - unfold has_traversal. apply existsb_exists. exists c.
    split; [exact Hc | apply contains_complete].
  - cbn in Hc. unfold truthy.
    repeat destruct Hc as [<- | Hc]; try contradiction;
      destruct pre; reflexivity.
Qed.

Section EndpointProperties.

Variable E : environment.
Variables dirname basename abspath : string -> string.
Variable join : string -> string -> string.

Abbreviation convert := (convert_to_pdf E dirname basename abspath join).
Abbreviation handle := (handle_file E dirname basename abspath join).
Abbreviation for_each := (for_each_file E dirname basename abspath join).
Abbreviation endpoint := (convert_files_endpoint E dirname basename abspath join).

(** Every turn of the loop returns and appends exactly one record, for the
    file of the turn. *)
Lemma handle_file_returns (temp_job_dir final_output_dir : string)
      (results : list (list (string * value))) (file : UploadFile) (w : world) :
  exists record w' evs,
    handle temp_job_dir final_output_dir results file w
      = (Ret (results ++ [record])%list, w') /\
    record_of file record /\
    log w' = (log w ++ evs)%list /\
    background_tasks w' = background_tasks w.
Proof.
  unfold handle_file, record_of.
  destruct (dict_mem _ SUPPORTED_EXTENSIONS); cbn [negb].
  - unfold bind, try_finally, try_except, write_upload, close_upload, ret,
      any_Exception.
    destruct (write_error E (log w) _) as [e |]; cbv beta iota zeta.
    + do 3 eexists. split; [reflexivity |]. split; [eauto |].
      split; [read_log | reflexivity].
    + match goal with
      | |- context [convert_to_pdf _ _ _ _ _ ?i ?o ?w0] =>
          destruct (convert_returns E dirname basename abspath join i o w0)
            as (b & msg & w' & evs & -> & Hlog & Hbt)
      end.
      do 3 eexists. split; [reflexivity |]. split; [eauto |].
      split; [| exact Hbt].
      rewrite Hlog. cbn [emit touch log]. rewrite <- !app_assoc. reflexivity.
  - unfold ret. do 3 eexists. split; [reflexivity |]. split; [eauto |].
    split; [symmetry; apply app_nil_r | reflexivity].
Qed.

(** The loop returns, with one record per file in the order of [files]. *)
Lemma for_each_file_returns (temp_job_dir final_output_dir : string)
      (files : list UploadFile) :
  forall (results : list (list (string * value))) (w : world),
  exists records w' evs,
    for_each temp_job_dir final_output_dir files results w
      = (Ret (results ++ records)%list, w') /\
    Forall2 record_of files records /\
    log w' = (log w ++ evs)%list /\
    background_tasks w' = background_tasks w.
Proof.
  induction files as [| file rest IH]; intros results w; cbn [for_each_file].
  - exists [], w, []. unfold ret. rewrite !app_nil_r. auto.
  - unfold bind at 1.
    destruct (handle_file_returns temp_job_dir final_output_dir results file w)
      as (record & w1 & evs1 & -> & Hrec & Hlog1 & Hbt1).
    destruct (IH (results ++ [record])%list w1)
      as (records & w2 & evs2 & -> & Hall & Hlog2 & Hbt2).
    exists (record :: records), w2, (evs1 ++ evs2)%list.
    rewrite <- app_assoc. split; [reflexivity |].
    split; [constructor; assumption |].
    split; [now rewrite Hlog2, Hlog1, app_assoc | congruence].
Qed.

(** The four ways a request ends: the job directory cannot be created;
    the subdirectory name is refused; the output directory cannot be
    created; a response is returned. *)
Lemma endpoint_cases (files : list UploadFile) (output_subdir : option string)
      (w : world) :
  let temp_job_dir := join TEMP_UPLOAD_DIR (uuid4 E (log w)) in
  let final_output_dir := final_dir join output_subdir in
  exists r w' evs,
    endpoint files output_subdir w = (r, w') /\
    log w' = (log w ++ evs)%list /\
    ((exists msg,
         r = Raise (OSError msg) /\
         evs = [EvMakedirs temp_job_dir true (Some (OSError msg))] /\
         background_tasks w' = background_tasks w) \/
     (rejected output_subdir = true /\
      (exists detail, r = Raise (HTTPException 400 detail)) /\
      evs = [EvMakedirs temp_job_dir true None] /\
      background_tasks w' = (background_tasks w ++ [temp_job_dir])%list) \/
     (rejected output_subdir = false /\
      exists msg,
        r = Raise (OSError msg) /\
        evs = [EvMakedirs temp_job_dir true None;
               EvMakedirs final_output_dir true (Some (OSError msg))] /\
        background_tasks w' = background_tasks w /\
        mem temp_job_dir (fs w') = true) \/
     (rejected output_subdir = false /\
      exists records loop_evs,
        r = Ret {| conversion_results := records |} /\
        Forall2 record_of files records /\
        evs = EvMakedirs temp_job_dir true None
              :: EvMakedirs final_output_dir true None :: loop_evs /\
        background_tasks w' = (background_tasks w ++ [temp_job_dir])%list)).
Proof.
  intros temp_job_dir final_output_dir.
  unfold convert_files_endpoint.
  unfold bind at 1, new_job_id at 1. fold temp_job_dir.
  unfold bind at 1, makedirs at 1.
  destruct (makedirs_error E (log w) temp_job_dir true) as [msg |].
  { do 3 eexists. split; [reflexivity |]. split; [reflexivity |].
    left. eauto. }
  unfold bind at 1.
  assert (Hguard :
    (rejected output_subdir = true /\
     match output_subdir with
     | Some sub => truthy sub = true /\ has_traversal sub = true
     | None => False
     end) \/
    (rejected output_subdir = false /\
     match output_subdir with
     | Some sub =>
         if truthy sub then has_traversal sub = false else True
     | None => True
     end)).
  { unfold rejected. destruct output_subdir as [sub |]; [| now right].
    destruct (truthy sub), (has_traversal sub); cbn; auto. }
  destruct Hguard as [[Hrej Hsub] | [Hacc Hsub]].
  - destruct output_subdir as [sub |]; [| contradiction].
    destruct Hsub as [-> ->]. unfold bind, add_task, raise.
    cbn [fs log background_tasks emit touch].
    do 3 eexists. split; [reflexivity |]. split; [reflexivity |].
    right; left. eauto.
  - assert (Hfinal :
      forall w0 : world,
        match output_subdir with
        | Some sub =>
            if truthy sub then
              if has_traversal sub then
                (add_task temp_job_dir ;;;
                 raise (HTTPException 400
                   "출력 하위 디렉토리 이름에 유효하지 않은 문자가 포함되어 있습니다."))
              else ret (join DEFAULT_OUTPUT_DIR sub)
            else ret DEFAULT_OUTPUT_DIR
        | None => ret DEFAULT_OUTPUT_DIR
        end w0 = (Ret final_output_dir, w0)).
    { intros w0. subst final_output_dir. unfold final_dir.
      destruct output_subdir as [sub |]; [| reflexivity].
      destruct (truthy sub); [rewrite Hsub |]; reflexivity. }
    rewrite Hfinal. unfold bind at 1, makedirs at 1.
    cbn [fs log background_tasks emit touch].
    destruct (makedirs_error E _ final_output_dir true) as [msg |].
    { do 3 eexists. split; [reflexivity |]. split; [read_log |].
      right; right; left. split; [exact Hacc |]. exists msg.
      repeat split. cbn. now rewrite String.eqb_refl. }
    unfold bind at 1.
    match goal with
    | |- context [for_each_file _ _ _ _ _ ?t ?f files [] ?w0] =>
        destruct (for_each_file_returns t f files [] w0)
          as (records & w1 & loop_evs & -> & Hall & Hlog & Hbt)
    end.
    unfold bind, add_task, ret. cbn [app fs log background_tasks] in *.
    do 3 eexists. split; [reflexivity |]. split.
    { rewrite Hlog. cbn [emit touch log]. rewrite <- !app_assoc.
      cbn [app]. reflexivity. }
    right; right; right. split; [exact Hacc |].
    exists records, loop_evs. rewrite Hbt. repeat split. exact Hall.
Qed.

(** C2: an upload or input whose lowercased extension is not a key of
    [SUPPORTED_EXTENSIONS] is refused before anything else happens.
    [convert_to_pdf] returns [False] with the world untouched, so no
    application object is created; the turn of the loop in the handler
    records a failure for the file with the world untouched, so the file is
    not saved and [convert_to_pdf] is not called. *)
Theorem unsupported_rejected_early (name : string) :
  dict_mem (Str.lower (snd (ntpath.splitext name)))
           SUPPORTED_EXTENSIONS = false ->
  (forall output_path w,
      exists msg, convert name output_path w = (Ret (false, msg), w)) /\
  (forall temp_job_dir final_output_dir results file w,
      filename file = name ->
      exists msg,
        handle temp_job_dir final_output_dir results file w
          = (Ret (results ++ [result_dict name false msg])%list, w)).
Proof.
  intros Hno. split.
  - intros output_path w. now apply convert_rejects_unsupported.
  - intros temp_job_dir final_output_dir results file w Hname.
    unfold handle_file. rewrite Hname, Hno. cbn [negb]. unfold ret. eauto.
Qed.

(** C9: when the extension of a name differs from a key of
    [SUPPORTED_EXTENSIONS] only in the case of its letters, the lowercased
    extension is found in the table, and both entry points go on:
    [convert_to_pdf], for an existing input, to its first external call
    (creating the output directory or the application the key selects),
    the handler to saving the upload in the job directory. *)
Theorem extension_case_insensitive (name ext : string) :
  In ext (map fst SUPPORTED_EXTENSIONS) ->
  Str.eq_nocase (snd (ntpath.splitext name)) ext = true ->
  dict_mem (Str.lower (snd (ntpath.splitext name)))
           SUPPORTED_EXTENSIONS = true /\
  (forall output_path w,
      mem name (fs w) = true ->
      exists r w' ev evs app_name,
        convert name output_path w = (r, w') /\
        log w' = (log w ++ ev :: evs)%list /\
        dict_get SUPPORTED_EXTENSIONS ext = Some app_name /\
        ((exists raised,
             ev = EvMakedirs (if (output_path =? "")%string
                              then dirname name else output_path)
                             false raised) \/
         (exists raised, ev = EvCom (CreateObject app_name) raised))) /\
  (forall temp_job_dir final_output_dir results file w,
      filename file = name ->
      exists r w' raised evs,
        handle temp_job_dir final_output_dir results file w = (r, w') /\
        log w' = (log w ++ EvWriteUpload (join temp_job_dir name) raised
                        :: evs)%list).
Proof.
  intros Hkey Hcase.
  destruct (supported_keys_lower ext Hkey) as [Hlow Hmem].
  assert (Hext : Str.lower (snd (ntpath.splitext name)) = ext).
  { rewrite (eq_nocase_lower _ _ Hcase). exact Hlow. }
  split; [now rewrite Hext |]. split.
  - intros output_path w Hthere.
    destruct (convert_accepts_supported E dirname basename abspath join
                name output_path w Hthere)
      as (r & w' & ev & evs & app_name & Hrun & Hlog & Happ & Hfirst).
    { now rewrite Hext. }
    rewrite Hext in Happ. exists r, w', ev, evs, app_name. auto.
  - intros temp_job_dir final_output_dir results file w Hname.
    unfold handle_file. rewrite Hname, Hext, Hmem. cbn [negb].
    unfold bind, try_finally, try_except, write_upload, close_upload, ret,
      any_Exception.
    destruct (write_error E (log w) _) as [e |]; cbv beta iota zeta.
    + do 4 eexists. split; [reflexivity | read_log].
    + match goal with
      | |- context [convert_to_pdf _ _ _ _ _ ?i ?o ?w0] =>
          destruct (convert_returns E dirname basename abspath join i o w0)
            as (b & msg & w' & evs & -> & Hlog & _)
      end.
      do 4 eexists. split; [reflexivity |].
      rewrite Hlog. cbn [emit touch log]. rewrite <- !app_assoc. reflexivity.
Qed.

(** C5, as amended: when the subdirectory name contains [/], [\] or [..],
    no upload is saved and the automation surface is not called; and
    unless [os.makedirs] raised on the job directory, the handler raises
    [HTTPException] with status 400. *)
Theorem traversal_rejected (files : list UploadFile)
        (output_subdir c pre post : string) (w : world) :
  In c [ "/"; "\"; ".." ] ->
  output_subdir = pre ++ c ++ post ->
  exists r w' evs,
    endpoint files (Some output_subdir) w = (r, w') /\
    log w' = (log w ++ evs)%list /\
    Trace.never Trace.is_write_upload evs /\
    Trace.never Trace.is_com evs /\
    (Trace.never Trace.makedirs_raised evs ->
     exists detail, r = Raise (HTTPException 400 detail)).
Proof.
  intros Hc ->. destruct (traversal_detected c pre post Hc) as [Htrav Htruthy].
  destruct (endpoint_cases files (Some (pre ++ c ++ post)) w)
    as (r & w' & evs & Hrun & Hlog & Hcases).
  exists r, w', evs. split; [exact Hrun |]. split; [exact Hlog |].
  assert (Hrej : rejected (Some (pre ++ c ++ post)) = true).
  { unfold rejected. now rewrite Htrav, Htruthy. }
  destruct Hcases as [(msg & -> & -> & _) | [(_ & Hr & -> & _) | [[Hacc _] | [Hacc _]]]];
    try congruence.
  - repeat split; try (apply never_checked; reflexivity).
    intros Hnever. specialize (Hnever _ (or_introl eq_refl)). discriminate.
  - repeat split; try (apply never_checked; reflexivity). intros _; exact Hr.
Qed.



(** Every exit of the handler that the code foresees schedules the removal
    of the job directory: the response and the refusal with status 400. *)
Lemma cleanup_scheduled_on_exit (files : list UploadFile)
      (output_subdir : option string) (w w' : world) (r : outcome JSONResponse) :
  endpoint files output_subdir w = (r, w') ->
  (exists response, r = Ret response) \/
  (exists detail, r = Raise (HTTPException 400 detail)) ->
  background_tasks w'
    = (background_tasks w ++ [join TEMP_UPLOAD_DIR (uuid4 E (log w))])%list.
Proof.
  intros Hrun Hexit.
  destruct (endpoint_cases files output_subdir w)
    as (r1 & w1 & evs & Hrun' & _ & Hcases).
  rewrite Hrun in Hrun'. injection Hrun' as <- <-.
  destruct Hcases as [(msg & -> & _) | [(_ & _ & _ & Hbt) | [(_ & msg & -> & _) | (_ & records & loop & _ & _ & _ & Hbt)]]];
    try exact Hbt;
    destruct Hexit as [[x Hx] | [x Hx]]; discriminate.
Qed.

(** C7, the handler: [os.makedirs(final_output_dir, exist_ok=True)] has
    returned before any upload is saved and before any call into the
    automation surface. *)
Lemma endpoint_makes_output_dir_first (files : list UploadFile)
      (output_subdir : option string) (w : world) :
  exists evs,
    log (snd (endpoint files output_subdir w)) = (log w ++ evs)%list /\
    Trace.preceded_by
      (fun ev => Trace.is_com ev || Trace.is_write_upload ev)
      (Trace.made_dir (final_dir join output_subdir)) evs.
Proof.
  destruct (endpoint_cases files output_subdir w)
    as (r & w' & evs & -> & Hlog & Hcases).
  exists evs. split; [exact Hlog |].
  destruct Hcases as [(msg & _ & -> & _) | [(_ & _ & -> & _) | [(_ & msg & _ & -> & _) | (_ & records & loop & _ & _ & -> & _)]]];
    try (apply preceded_by_never, never_checked; reflexivity).
  apply (preceded_by_after _ _ _ [_]).
  - cbn. apply String.eqb_refl.
  - reflexivity.
  - apply never_checked. reflexivity.
Qed.

End EndpointProperties.

(** ** Requests as a whole *)

Lemma followed_by_app (p q : event -> bool) (a b : list event) :
  Trace.followed_by p q a -> Trace.followed_by p q b ->
  Trace.followed_by p q (a ++ b).
Proof.
  intros Ha Hb pre ev post Heq Hp.
  apply app_eq_app in Heq as [l [[-> Hl] | [-> ->]]].
  - destruct l as [| x l]; cbn in Hl.
    + subst b. exact (Hb [] ev post eq_refl Hp).
    + injection Hl as Hx Hpost. subst x post.
      destruct (Ha pre ev l eq_refl Hp) as (ev' & Hin & Hq).
      exists ev'. split; [apply in_or_app; now left | exact Hq].
  - exact (Hb l ev post eq_refl Hp).
Qed.

Lemma preceded_by_app (p q : event -> bool) (a b : list event) :
  Trace.preceded_by p q a -> Trace.preceded_by p q b ->
  Trace.preceded_by p q (a ++ b).
Proof.
  intros Ha Hb pre ev post Heq Hp.
  apply app_eq_app in Heq as [l [[-> Hl] | [-> ->]]].
  - destruct l as [| x l]; cbn in Hl.
    + subst b. destruct (Hb [] ev post eq_refl Hp) as (ev' & [] & _).
    + injection Hl as Hx Hpost. subst x post.
      exact (Ha pre ev l eq_refl Hp).
  - destruct (Hb l ev post eq_refl Hp) as (ev' & Hin & Hq).
    exists ev'. split; [apply in_or_app; now right | exact Hq].
Qed.

Lemma never_app (p : event -> bool) (a b : list event) :
  Trace.never p a -> Trace.never p b -> Trace.never p (a ++ b).
Proof.
  intros Ha Hb ev Hin. apply in_app_or in Hin as [Hin | Hin]; auto.
Qed.

Lemma never_kind (p : event -> bool) (evs : list event) :
  forallb (fun ev => Order.is_makedirs ev || Trace.is_com ev) evs = true ->
  (forall ev, p ev = true -> Order.is_makedirs ev || Trace.is_com ev = false) ->
  Trace.never p evs.
Proof.
  intros Hall Hp ev Hin. rewrite forallb_forall in Hall.
  specialize (Hall ev Hin). destruct (p ev) eqn:Hpe; [| reflexivity].
  rewrite (Hp ev Hpe) in Hall. discriminate.
Qed.

Lemma count_app (p : event -> bool) (a b : list event) :
  Order.count p (a ++ b) = (Order.count p a + Order.count p b)%nat.
Proof. unfold Order.count. now rewrite filter_app, length_app. Qed.

Lemma count_never (p : event -> bool) (evs : list event) :
  Trace.never p evs -> Order.count p evs = 0%nat.
Proof.
  unfold Order.count. induction evs as [| ev evs IH]; intros H; cbn.
  - reflexivity.
  - rewrite (H ev (or_introl eq_refl)). apply IH.
    intros e He. apply H. now right.
Qed.
Lemma followed_by_never (p q : event -> bool) (evs : list event) :
  Trace.never p evs -> Trace.followed_by p q evs.
Proof.
  intros Hnever pre ev post -> Hp.
  rewrite (Hnever ev) in Hp; [discriminate |].
  apply in_or_app. right. now left.
Qed.

Lemma mem_cons_keep (p q : string) (l : list string) :
  mem p l = true -> mem p (q :: l) = true.
Proof. unfold mem. cbn. intros ->. apply orb_true_r. Qed.

Lemma prefix_split (c s : string) :
  String.prefix c s = true -> exists post, s = c ++ post.
Proof.
  revert s; induction c as [| a c IH]; intros s H.
  - exists s. reflexivity.
  - destruct s as [| b s]; cbn in H; [discriminate |].
    destruct (ascii_dec a b) as [-> |]; [| discriminate].
    destruct (IH s H) as [post ->]. exists post. reflexivity.
Qed.

Lemma contains_sound (c s : string) :
  Str.contains c s = true -> exists pre post, s = pre ++ c ++ post.
Proof.
  induction s as [| a s IH]; cbn [Str.contains]; intros H.
  - rewrite orb_false_r in H. destruct (prefix_split _ _ H) as [post ->].
    exists "", post. reflexivity.
  - apply orb_true_iff in H as [H | H].
    + destruct (prefix_split _ _ H) as [post ->]. exists "", post. reflexivity.
    + destruct (IH H) as (pre & post & ->).
      exists (String a pre), post. reflexivity.
Qed.

(** X5: the guard on the subdirectory name refuses exactly the names in
    which [/], [\] or [..] occurs somewhere. *)
Theorem traversal_guard_exact (output_subdir : string) :
  has_traversal output_subdir = true <->
  exists c pre post,
    In c [ "/"; "\"; ".." ] /\ output_subdir = pre ++ c ++ post.
Proof.
  split.
  - unfold has_traversal. intros H.
    apply existsb_exists in H as (c & Hc & Hin).
    destruct (contains_sound _ _ Hin) as (pre & post & ->).
    exists c, pre, post. split; [exact Hc | reflexivity].
  - intros (c & pre & post & Hc & ->).
    exact (proj1 (traversal_detected c pre post Hc)).
Qed.

Section RequestProperties.

Variable E : environment.
Variables dirname basename abspath : string -> string.
Variable join : string -> string -> string.

Abbreviation handle := (handle_file E dirname basename abspath join).
Abbreviation for_each := (for_each_file E dirname basename abspath join).
Abbreviation endpoint := (convert_files_endpoint E dirname basename abspath join).

(** One turn of the loop, with what it does to the world. *)
Lemma handle_file_events (temp_job_dir final_output_dir : string)
      (results : list (list (string * value))) (file : UploadFile) (w : world) :
  exists b msg w' evs,
    handle temp_job_dir final_output_dir results file w
      = (Ret (results ++ [result_dict (filename file) b msg])%list, w') /\
    log w' = (log w ++ evs)%list /\
    background_tasks w' = background_tasks w /\
    (forall p, mem p (fs w) = true -> mem p (fs w') = true) /\
    Trace.followed_by Trace.is_write_upload Order.is_close_upload evs /\
    Trace.preceded_by Trace.is_com Order.upload_saved evs /\
    (final_output_dir <> "" -> mem final_output_dir (fs w) = true ->
     Trace.never Order.is_makedirs evs) /\
    (final_output_dir <> "" -> b = true ->
     msg = join final_output_dir
             (basename (fst (ntpath.splitext
                               (join temp_job_dir (filename file))))
                ++ ".pdf")) /\
    (dict_mem (Str.lower (snd (ntpath.splitext (filename file))))
              SUPPORTED_EXTENSIONS = false -> b = false /\ evs = []).
Proof.
  unfold handle_file.
  destruct (dict_mem _ SUPPORTED_EXTENSIONS) eqn:Hsup; cbn [negb].
  - unfold bind, try_finally, try_except, write_upload, close_upload, ret,
      any_Exception.
    destruct (write_error E (log w) _) as [e |]; cbv beta iota zeta.
    + do 4 eexists. split; [reflexivity |]. split; [read_log |].
      split; [reflexivity |]. split; [intros p Hp; exact Hp |].
      split; [apply followed_byb_sound; reflexivity |].
      split; [apply preceded_by_checked; reflexivity |].
      split; [intros _ _; apply never_checked; reflexivity |].
      split; [discriminate |]. discriminate.
    + match goal with
      | |- context [convert_to_pdf _ _ _ _ _ ?i ?o ?w0] =>
          destruct (convert_in_existing_dir E dirname basename abspath join
                      i o w0)
            as (b & msg & w' & evs & -> & Hlog & Hbt & Hfs & Hkind & Hmsg
                & Hdir)
      end.
      exists b, msg, w'. eexists.
      split; [reflexivity |].
      split; [rewrite Hlog; cbn [emit touch log]; rewrite <- !app_assoc;
              cbn [app]; reflexivity |].
      split; [exact Hbt |].
      split; [intros p Hp; apply Hfs; cbn [emit touch fs];
              now apply mem_cons_keep |].
      split.
      { apply (followed_by_app _ _ [_; _]).
        - apply followed_byb_sound. reflexivity.
        - apply followed_by_never. eapply never_kind; [exact Hkind |].
          intros [] Hp; try discriminate; reflexivity. }
      split.
      { apply (preceded_by_after _ _ _ []); try reflexivity.
        intros ev []. }
      split.
      { intros Hne Hthere. apply (never_app _ [_; _]).
        - apply never_checked. reflexivity.
        - apply Hdir. apply String.eqb_neq in Hne. rewrite Hne.
          cbn [emit touch fs]. now apply mem_cons_keep. }
      split; [| discriminate].
      intros Hne Hb. apply String.eqb_neq in Hne. rewrite Hne in Hmsg.
      exact (Hmsg Hb).
  - unfold ret. do 4 eexists. split; [reflexivity |].
    split; [symmetry; apply app_nil_r |].
    split; [reflexivity |]. split; [intros p Hp; exact Hp |].
    split; [apply followed_byb_sound; reflexivity |].
    split; [apply preceded_by_checked; reflexivity |].
    split; [intros _ _; apply never_checked; reflexivity |].
    split; [discriminate |]. intros _. split; reflexivity.
Qed.

(** The loop, with what it does to the world. *)
Lemma for_each_file_events (temp_job_dir final_output_dir : string)
      (files : list UploadFile) :
  forall (results : list (list (string * value))) (w : world),
  exists records w' evs,
    for_each temp_job_dir final_output_dir files results w
      = (Ret (results ++ records)%list, w') /\
    log w' = (log w ++ evs)%list /\
    background_tasks w' = background_tasks w /\
    (forall p, mem p (fs w) = true -> mem p (fs w') = true) /\
    Trace.followed_by Trace.is_write_upload Order.is_close_upload evs /\
    Trace.preceded_by Trace.is_com Order.upload_saved evs /\
    (final_output_dir <> "" -> mem final_output_dir (fs w) = true ->
     Trace.never Order.is_makedirs evs) /\
    Forall2 (record_for basename join temp_job_dir final_output_dir)
            files records /\
    (Forall unsupported files -> evs = []).
Proof.
  induction files as [| file rest IH]; intros results w; cbn [for_each_file].
  - exists [], w, []. unfold ret. rewrite !app_nil_r.
    split; [reflexivity |]. split; [reflexivity |]. split; [reflexivity |].
    split; [auto |].
    split; [apply followed_byb_sound; reflexivity |].
    split; [apply preceded_by_checked; reflexivity |].
    split; [intros _ _; apply never_checked; reflexivity |].
    split; [constructor | reflexivity].
  - unfold bind at 1.
    destruct (handle_file_events temp_job_dir final_output_dir results file w)
      as (b & msg & w1 & evs1 & -> & Hlog1 & Hbt1 & Hfs1 & Hfol1 & Hpre1
          & Hdir1 & Hmsg1 & Hun1).
    destruct (IH (results ++ [result_dict (filename file) b msg])%list w1)
      as (records & w2 & evs2 & -> & Hlog2 & Hbt2 & Hfs2 & Hfol2 & Hpre2
          & Hdir2 & Hall & Hun2).
    exists (result_dict (filename file) b msg :: records), w2,
      (evs1 ++ evs2)%list.
    rewrite <- app_assoc. split; [reflexivity |].
    split; [now rewrite Hlog2, Hlog1, app_assoc |].
    split; [congruence |].
    split; [auto |].
    split; [now apply followed_by_app |].
    split; [now apply preceded_by_app |].
    split; [intros Hne Hthere; apply never_app; auto |].
    split.
    + constructor; [| exact Hall]. exists b, msg.
      split; [reflexivity |]. split; [exact Hmsg1 |].
      intros Hu. now apply Hun1.
    + intros Hu. inversion Hu as [| f fs' Hf Hrest]; subst.
      destruct (Hun1 Hf) as [_ ->]. now rewrite (Hun2 Hrest).
Qed.

(** A request ends in an exception after at most two [os.makedirs] calls
    and nothing else, or in a response after the two calls and the loop. *)
Lemma request_events (files : list UploadFile) (output_subdir : option string)
      (w : world) :
  let temp_job_dir := join TEMP_UPLOAD_DIR (uuid4 E (log w)) in
  let final_output_dir := final_dir join output_subdir in
  exists r w' evs,
    endpoint files output_subdir w = (r, w') /\
    log w' = (log w ++ evs)%list /\
    (((exists e, r = Raise e) /\
      (length evs <= 2)%nat /\
      Forall (fun ev => exists name raised, ev = EvMakedirs name true raised)
             evs) \/
     (exists records loop_evs,
         r = Ret {| conversion_results := records |} /\
         evs = EvMakedirs temp_job_dir true None
               :: EvMakedirs final_output_dir true None :: loop_evs /\
         Trace.followed_by Trace.is_write_upload Order.is_close_upload
                           loop_evs /\
         Trace.preceded_by Trace.is_com Order.upload_saved loop_evs /\
         (final_output_dir <> "" -> Trace.never Order.is_makedirs loop_evs) /\
         Forall2 (record_for basename join temp_job_dir final_output_dir)
                 files records /\
         (Forall unsupported files -> loop_evs = []))).
Proof.
  intros temp_job_dir final_output_dir.
  unfold convert_files_endpoint.
  unfold bind at 1, new_job_id at 1. fold temp_job_dir.
  unfold bind at 1, makedirs at 1.
  destruct (makedirs_error E (log w) temp_job_dir true) as [msg |].
  { do 3 eexists. split; [reflexivity |]. split; [reflexivity |].
    left. split; [eauto |]. split; [cbn; lia |]. repeat constructor; eauto. }
  unfold bind at 1.
  destruct output_subdir as [sub |]; cbn [final_dir] in final_output_dir.
  2:{ unfold ret at 1. subst final_output_dir.
      unfold bind at 1, makedirs at 1.
      cbn [fs log background_tasks emit touch].
      destruct (makedirs_error E _ DEFAULT_OUTPUT_DIR true) as [msg |].
      { do 3 eexists. split; [reflexivity |]. split; [read_log |].
        left. split; [eauto |]. split; [cbn; lia |].
        repeat constructor; eauto. }
      unfold bind at 1.
      match goal with
      | |- context [for_each_file _ _ _ _ _ ?t ?f files [] ?w0] =>
          destruct (for_each_file_events t f files [] w0)
            as (records & w1 & loop_evs & -> & Hlog & Hbt & Hfs & Hfol
                & Hpre & Hdir & Hall & Hun)
      end.
      unfold bind, add_task, ret. cbn [app fs log background_tasks] in *.
      do 3 eexists. split; [reflexivity |]. split.
      { rewrite Hlog. cbn [emit touch log]. rewrite <- !app_assoc.
        cbn [app]. reflexivity. }
      right. exists records, loop_evs. repeat split; auto. }
  destruct (truthy sub) eqn:Htruthy.
  2:{ unfold ret at 1. subst final_output_dir.
      unfold bind at 1, makedirs at 1.
      cbn [fs log background_tasks emit touch].
      destruct (makedirs_error E _ DEFAULT_OUTPUT_DIR true) as [msg |].
      { do 3 eexists. split; [reflexivity |]. split; [read_log |].
        left. split; [eauto |]. split; [cbn; lia |].
        repeat constructor; eauto. }
      unfold bind at 1.
      match goal with
      | |- context [for_each_file _ _ _ _ _ ?t ?f files [] ?w0] =>
          destruct (for_each_file_events t f files [] w0)
            as (records & w1 & loop_evs & -> & Hlog & Hbt & Hfs & Hfol
                & Hpre & Hdir & Hall & Hun)
      end.
      unfold bind, add_task, ret. cbn [app fs log background_tasks] in *.
      do 3 eexists. split; [reflexivity |]. split.
      { rewrite Hlog. cbn [emit touch log]. rewrite <- !app_assoc.
        cbn [app]. reflexivity. }
      right. exists records, loop_evs. repeat split; auto. }
  destruct (has_traversal sub).
  { unfold bind, add_task, raise. cbn [fs log background_tasks emit touch].
    do 3 eexists. split; [reflexivity |]. split; [reflexivity |].
    left. split; [eauto |]. split; [cbn; lia |]. repeat constructor; eauto. }
  unfold ret at 1. subst final_output_dir.
  unfold bind at 1, makedirs at 1.
  cbn [fs log background_tasks emit touch].
  destruct (makedirs_error E _ (join DEFAULT_OUTPUT_DIR sub) true) as [msg |].
  { do 3 eexists. split; [reflexivity |]. split; [read_log |].
    left. split; [eauto |]. split; [cbn; lia |]. repeat constructor; eauto. }
  unfold bind at 1.
  match goal with
  | |- context [for_each_file _ _ _ _ _ ?t ?f files [] ?w0] =>
      destruct (for_each_file_events t f files [] w0)
        as (records & w1 & loop_evs & -> & Hlog & Hbt & Hfs & Hfol
            & Hpre & Hdir & Hall & Hun)
  end.
  unfold bind, add_task, ret. cbn [app fs log background_tasks] in *.
  do 3 eexists. split; [reflexivity |]. split.
  { rewrite Hlog. cbn [emit touch log]. rewrite <- !app_assoc.
    cbn [app]. reflexivity. }
  right. exists records, loop_evs. repeat split; auto.
  intros Hne. apply Hdir; [exact Hne |].
  unfold mem. cbn. now rewrite String.eqb_refl.
Qed.


(** X7: when joining a name to [DEFAULT_OUTPUT_DIR] never gives the empty
    path, every [os.makedirs] call of a request is one of its first two
    events and has [exist_ok=True]: [convert_to_pdf] finds the output
    directory in place and creates none. *)
Theorem request_creates_two_directories (files : list UploadFile)
        (output_subdir : option string) (w : world) :
  (forall name, join DEFAULT_OUTPUT_DIR name <> "") ->
  exists first rest,
    log (snd (endpoint files output_subdir w))
      = (log w ++ first ++ rest)%list /\
    (length first <= 2)%nat /\
    Forall (fun ev => exists name raised, ev = EvMakedirs name true raised)
           first /\
    Trace.never Order.is_makedirs rest.
Proof.
  intros Hjoin.
  destruct (request_events files output_subdir w)
    as (r & w' & evs & -> & Hlog & Hcases).
  destruct Hcases as [(_ & Hlen & Hmk) | (records & loop_evs & _ & -> & _ & _ & Hdir & _)].
  - exists evs, []. rewrite app_nil_r. repeat split; auto.
    intros ev [].
  - exists [EvMakedirs (join TEMP_UPLOAD_DIR (uuid4 E (log w))) true None;
            EvMakedirs (final_dir join output_subdir) true None], loop_evs.
    split; [exact Hlog |]. split; [cbn; lia |].
    split; [repeat constructor; eauto |].
    apply Hdir. unfold final_dir.
    destruct output_subdir as [sub |]; [| discriminate].
    destruct (truthy sub); [apply Hjoin | discriminate].
Qed.

(** X8: when joining a name to [DEFAULT_OUTPUT_DIR] never gives the empty
    path, every record of a response that reports success carries, as its
    message, the path of the PDF: the output directory of the request
    joined with the base name of the saved upload, [.pdf] in place of its
    extension. *)
Theorem success_message_is_pdf_path (files : list UploadFile)
        (output_subdir : option string) (w w' : world)
        (response : JSONResponse) :
  (forall name, join DEFAULT_OUTPUT_DIR name <> "") ->
  endpoint files output_subdir w = (Ret response, w') ->
  Forall2
    (fun file record =>
       dict_get record "success" = Some (VBool true) ->
       dict_get record "message"
         = Some (VStr (pdf_of_upload basename join
                         (join TEMP_UPLOAD_DIR (uuid4 E (log w)))
                         (final_dir join output_subdir) file)))
    files (conversion_results response).
Proof.
  intros Hjoin Hrun.
  destruct (request_events files output_subdir w)
    as (r & w1 & evs & Hrun' & _ & Hcases).
  rewrite Hrun in Hrun'. injection Hrun' as <- <-.
  destruct Hcases as [([e He] & _) | (records & loop_evs & Hr & _ & _ & _ & _ & Hall & _)];
    [discriminate |].
  injection Hr as ->. cbn [conversion_results].
  assert (Hne : final_dir join output_subdir <> "").
  { unfold final_dir. destruct output_subdir as [sub |]; [| discriminate].
    destruct (truthy sub); [apply Hjoin | discriminate]. }
  clear Hrun. induction Hall as [| file record fs' rs' Hrec _ IH];
    constructor; [| exact IH].
  destruct Hrec as (b & msg & -> & Hmsg & _). cbn.
  intros Hb. injection Hb as ->. now rewrite (Hmsg Hne eq_refl).
Qed.

Lemma unsupported_records_fail (temp_job_dir final_output_dir : string)
      (files : list UploadFile) (records : list (list (string * value))) :
  Forall2 (record_for basename join temp_job_dir final_output_dir)
          files records ->
  Forall unsupported files ->
  Forall (fun record => dict_get record "success" = Some (VBool false))
         records.
Proof.
  induction 1 as [| file record files' records' Hrec _ IH]; intros Hun.
  - constructor.
  - inversion Hun as [| f l Hf Hrest]; subst.
    constructor; [| now apply IH].
    destruct Hrec as (b & msg & -> & _ & Hb). now rewrite (Hb Hf).
Qed.

(** X9: a request in which no upload has a supported extension makes no
    external call beyond the [os.makedirs] calls that open it, and every
    record of its response reports failure. *)
Theorem unsupported_only_request (files : list UploadFile)
        (output_subdir : option string) (w : world) :
  Forall unsupported files ->
  exists r w' evs,
    endpoint files output_subdir w = (r, w') /\
    log w' = (log w ++ evs)%list /\
    forallb Order.is_makedirs evs = true /\
    (forall response,
        r = Ret response ->
        length (conversion_results response) = length files /\
        Forall (fun record => dict_get record "success" = Some (VBool false))
               (conversion_results response)).
Proof.
  intros Hun.
  destruct (request_events files output_subdir w)
    as (r & w' & evs & Hrun & Hlog & Hcases).
  exists r, w', evs. split; [exact Hrun |]. split; [exact Hlog |].
  destruct Hcases as [([e ->] & _ & Hmk) | (records & loop_evs & -> & -> & _ & _ & _ & Hall & Hnil)].
  - split; [| discriminate].
    apply forallb_forall. intros ev Hin. rewrite Forall_forall in Hmk.
    destruct (Hmk ev Hin) as (name & raised & ->). reflexivity.
  - rewrite (Hnil Hun). split; [reflexivity |].
    intros response Hr. injection Hr as <-. cbn [conversion_results].
    split; [symmetry; eapply Forall2_length; eauto |].
    eapply unsupported_records_fail; eauto.
Qed.


End RequestProperties.

(** ** The desktop application *)

Lemma mem_In (p : string) (l : list string) : mem p l = true <-> In p l.
Proof.
  unfold mem. rewrite existsb_exists. split.
  - intros (q & Hin & Heq). apply String.eqb_eq in Heq. now subst.
  - intros Hin. exists p. split; [exact Hin | apply String.eqb_refl].
Qed.

Lemma mem_not_In (p : string) (l : list string) : mem p l = false <-> ~ In p l.
Proof.
  rewrite <- mem_In. destruct (mem p l); split; congruence.
Qed.

Section FileList.

Variable basename : string -> string.

(** What the loop of [select_files] adds to the queue. *)
Lemma add_selected_adds (selected_files : list string) :
  forall a : Gui.PdfConverterApp,
  exists added,
    Gui.add_selected basename selected_files a
      = Gui.set_files (Gui.input_files a ++ added)
                      (Gui.file_listbox a ++ map basename added) a /\
    NoDup added /\
    (forall p, In p added -> In p selected_files /\ ~ In p (Gui.input_files a)) /\
    (forall p, In p selected_files -> In p (Gui.input_files a ++ added)).
Proof.
  induction selected_files as [| file_path rest IH]; intros a; cbn [Gui.add_selected].
  - exists []. cbn. rewrite !app_nil_r. destruct a.
    repeat split; auto; try constructor; try (intros p []).
  - destruct (mem file_path (Gui.input_files a)) eqn:Hmem; cbn [negb].
    + destruct (IH a) as (added & -> & Hnd & Hnew & Hall).
      exists added. split; [reflexivity |]. split; [exact Hnd |]. split.
      * intros p Hp. destruct (Hnew p Hp). split; [now right | assumption].
      * intros p [<- | Hp]; [| now apply Hall].
        apply in_or_app. left. now apply mem_In.
    + apply mem_not_In in Hmem.
      destruct (IH (Gui.set_files (Gui.input_files a ++ [file_path])
                      (Gui.file_listbox a ++ [basename file_path]) a))
        as (added & -> & Hnd & Hnew & Hall).
      cbn [Gui.input_files Gui.file_listbox Gui.set_files] in *.
      exists (file_path :: added). split.
      * unfold Gui.set_files. cbn. rewrite <- !app_assoc. reflexivity.
      * split; [| split].
        -- constructor; [| exact Hnd]. intros Hin.
           destruct (Hnew _ Hin) as [_ Hno]. apply Hno.
           apply in_or_app. right. now left.
        -- intros p [<- | Hp]; [split; [now left | exact Hmem] |].
           destruct (Hnew p Hp) as [Hr Hno]. split; [now right |].
           intros Hin. apply Hno. apply in_or_app. now left.
        -- intros p [<- | Hp].
           ++ apply in_or_app. right. now left.
           ++ specialize (Hall p Hp). rewrite <- app_assoc in Hall. exact Hall.
Qed.

(** X11: [select_files] keeps the queue and the list box in step.  Files
    already queued stay where they are, the chosen files that are new are
    appended once each, in the list box under their base names, every
    chosen file is queued afterwards, and no file is queued twice. *)
Theorem select_files_keeps_consistent (selected_files : list string)
        (a : Gui.PdfConverterApp) :
  Gui.consistent basename a ->
  let a' := Gui.select_files basename selected_files a in
  Gui.consistent basename a' /\
  (forall p, In p selected_files -> In p (Gui.input_files a')) /\
  exists added,
    Gui.input_files a' = (Gui.input_files a ++ added)%list /\
    Gui.file_listbox a' = (Gui.file_listbox a ++ map basename added)%list /\
    incl added selected_files.
Proof.
  intros [Hnd Hperm] a'.
  assert (Ha' : a' = Gui.add_selected basename selected_files a).
  { subst a'. destruct selected_files; reflexivity. }
  destruct (add_selected_adds selected_files a) as (added & Heq & Hnda & Hnew & Hall).
  rewrite Ha', Heq. unfold Gui.consistent.
  cbn [Gui.input_files Gui.file_listbox Gui.set_files].
  split; [split |].
  - apply NoDup_app; [exact Hnd | exact Hnda |].
    intros p Hp Hq. now destruct (Hnew p Hq).
  - rewrite map_app. now apply Permutation_app_tail.
  - split; [exact Hall |]. exists added. repeat split.
    intros p Hp. now destruct (Hnew p Hp).
Qed.

(** X12: choosing the same files a second time changes nothing. *)
Theorem select_files_idempotent (selected_files : list string)
        (a : Gui.PdfConverterApp) :
  Gui.select_files basename selected_files
                   (Gui.select_files basename selected_files a)
  = Gui.select_files basename selected_files a.
Proof.
  assert (Hnoop : forall sel b,
             (forall p, In p sel -> In p (Gui.input_files b)) ->
             Gui.add_selected basename sel b = b).
  { induction sel as [| p rest IH]; intros b Hall; cbn [Gui.add_selected].
    - reflexivity.
    - rewrite (proj2 (mem_In p (Gui.input_files b)) (Hall p (or_introl eq_refl))).
      cbn [negb]. apply IH. intros q Hq. apply Hall. now right. }
  destruct selected_files as [| p rest]; [reflexivity |].
  cbn [Gui.select_files].
  apply Hnoop. intros q Hq.
  destruct (add_selected_adds (p :: rest) a) as (added & -> & _ & _ & Hall).
  cbn [Gui.input_files Gui.set_files]. now apply Hall.
Qed.

Lemma find_basename (name : string) (files : list string) :
  In name (map basename files) ->
  exists p,
    find (fun path => (basename path =? name)%string) files = Some p /\
    In p files /\ basename p = name.
Proof.
  induction files as [| q files IH]; cbn; [intros [] |].
  destruct (basename q =? name)%string eqn:Hq.
  - intros _. exists q. apply String.eqb_eq in Hq. auto.
  - intros [Heq | Hin].
    + rewrite Heq, String.eqb_refl in Hq. discriminate.
    + destruct (IH Hin) as (p & Hf & Hp & Hb). exists p. auto.
Qed.

Lemma list_remove_in (p : string) (l : list string) :
  In p l ->
  exists l',
    Gui.list_remove p l = Some l' /\ Permutation l (p :: l') /\
    (NoDup l -> NoDup l') /\ incl l' l.
Proof.
  induction l as [| q l IH]; cbn; [intros [] |].
  destruct (p =? q)%string eqn:Hpq.
  - intros _. apply String.eqb_eq in Hpq. subst q. exists l.
    split; [reflexivity |]. split; [reflexivity |].
    split; [intros H; now inversion H | intros x Hx; now right].
  - intros [Heq | Hin].
    + subst q. rewrite String.eqb_refl in Hpq. discriminate.
    + destruct (IH Hin) as (l' & -> & Hperm & Hnd & Hincl).
      exists (q :: l'). split; [reflexivity |]. split.
      * eapply Permutation_trans; [apply perm_skip; exact Hperm |].
        apply perm_swap.
      * split.
        -- intros H. inversion H as [| x xs Hno Hl]; subst.
           constructor; [| now apply Hnd].
           intros Hq. apply Hno. now apply Hincl.
        -- intros x [<- | Hx]; [now left | right; now apply Hincl].
Qed.

Lemma listbox_delete_row (i : nat) (rows : list string) :
  (i < length rows)%nat ->
  Permutation rows (Gui.listbox_get i rows :: Gui.listbox_delete i rows).
Proof.
  revert i; induction rows as [| row rows IH]; intros i Hi; cbn in Hi; [lia |].
  destruct i as [| i]; cbn.
  - reflexivity.
  - eapply Permutation_trans; [apply perm_skip; apply (IH i); lia |].
    apply perm_swap.
Qed.


Lemma remove_row_in_step (i : nat) (a : Gui.PdfConverterApp) :
  in_step basename a -> (i < length (Gui.file_listbox a))%nat ->
  exists files,
    Gui.remove_row basename i a
      = (Ret tt, Gui.set_files files
                   (Gui.listbox_delete i (Gui.file_listbox a)) a) /\
    in_step basename (Gui.set_files files (Gui.listbox_delete i (Gui.file_listbox a)) a) /\
    length (Gui.file_listbox a)
      = S (length (Gui.listbox_delete i (Gui.file_listbox a))) /\
    length (Gui.input_files a) = S (length files) /\
    incl files (Gui.input_files a).
Proof.
  intros [[Hnd Hperm] Hne] Hi. unfold Gui.remove_row.
  pose proof (listbox_delete_row i _ Hi) as Hrow.
  assert (Hname : In (Gui.listbox_get i (Gui.file_listbox a))
                     (map basename (Gui.input_files a))).
  { eapply Permutation_in; [exact Hperm |].
    eapply Permutation_in; [symmetry; exact Hrow | now left]. }
  destruct (find_basename _ _ Hname) as (p & -> & Hp & Hb).
  assert (Htruthy : truthy p = true).
  { unfold truthy. destruct (p =? "")%string eqn:Hp0; [| reflexivity].
    apply String.eqb_eq in Hp0. subst p. contradiction. }
  rewrite Htruthy.
  destruct (list_remove_in p _ Hp) as (files & -> & Hpf & Hndf & Hincl).
  exists files. split; [reflexivity |].
  unfold in_step, Gui.consistent.
  cbn [Gui.input_files Gui.file_listbox Gui.set_files].
  split; [split; [split |] |].
  - now apply Hndf.
  - apply (Permutation_cons_inv (a := Gui.listbox_get i (Gui.file_listbox a))).
    eapply Permutation_trans; [symmetry; exact Hrow |].
    eapply Permutation_trans; [exact Hperm |].
    rewrite <- Hb.
    change (basename p :: map basename files)
      with (map basename (p :: files)).
    now apply Permutation_map.
  - intros Hin. apply Hne. now apply Hincl.
  - split; [| split; [| exact Hincl]].
    + apply Permutation_length in Hrow. exact Hrow.
    + apply Permutation_length in Hpf. exact Hpf.
Qed.


Lemma descending_below_le (n m : nat) (rows : list nat) :
  descending_below n rows -> (n <= m)%nat -> descending_below m rows.
Proof. destruct rows; cbn; [auto |]. intros [H1 H2] Hle. split; [lia | auto]. Qed.

Lemma descending_below_snoc (n i : nat) (rows : list nat) :
  descending_below n rows -> (i < n)%nat -> Forall (fun j => (i < j)%nat) rows ->
  descending_below n (rows ++ [i]).
Proof.
  revert n; induction rows as [| j rows IH]; intros n Hd Hi Hall; cbn.
  - auto.
  - destruct Hd as [Hj Hd]. inversion Hall; subst. split; [exact Hj |].
    now apply IH.
Qed.

Lemma ascending_rev (n : nat) (indices : list nat) :
  StronglySorted lt indices -> Forall (fun i => (i < n)%nat) indices ->
  descending_below n (rev indices).
Proof.
  induction 1 as [| i rest Hs IH Hall]; intros Hn; cbn.
  - exact I.
  - inversion Hn; subst. apply descending_below_snoc; auto.
    apply Forall_rev. exact Hall.
Qed.

Lemma remove_rows_in_step (rows : list nat) :
  forall a : Gui.PdfConverterApp,
    in_step basename a -> descending_below (length (Gui.file_listbox a)) rows ->
    exists files listbox,
      Gui.remove_rows basename rows a
        = (Ret tt, Gui.set_files files listbox a) /\
      in_step basename (Gui.set_files files listbox a) /\
      length (Gui.file_listbox a) = (length listbox + length rows)%nat /\
      length (Gui.input_files a) = (length files + length rows)%nat /\
      incl files (Gui.input_files a).
Proof.
  induction rows as [| i rest IH]; intros a Hstep Hrows; cbn [Gui.remove_rows].
  - exists (Gui.input_files a), (Gui.file_listbox a). unfold ret.
    destruct a; cbn. repeat split; auto; try lia; try apply Hstep.
    intros x Hx; exact Hx.
  - destruct Hrows as [Hi Hrest]. unfold bind.
    destruct (remove_row_in_step i a Hstep Hi)
      as (files1 & -> & Hstep1 & Hlen1 & Hlenf1 & Hincl1).
    destruct (IH _ Hstep1) as (files & listbox & Heq & Hstep2 & Hlen2 & Hlenf2 & Hincl2).
    { cbn [Gui.file_listbox Gui.set_files].
      eapply descending_below_le; [exact Hrest | lia]. }
    rewrite Heq. exists files, listbox.
    cbn [Gui.input_files Gui.file_listbox Gui.set_files length] in *.
    split; [destruct a; reflexivity |].
    split; [destruct a; exact Hstep2 |].
    split; [lia |]. split; [lia |].
    intros x Hx. apply Hincl1. now apply Hincl2.
Qed.

(** X13: removing rows keeps the queue and the list box in step.  When the
    list box shows the base names of the queued files, no queued path is
    empty, and the selected rows are given in ascending order and exist,
    [remove_selected_files] does not raise, removes one queued file for
    each selected row and leaves the list box showing the base names of
    the files that remain. *)
Theorem remove_keeps_consistent (selected_indices : list nat)
        (a : Gui.PdfConverterApp) :
  Gui.consistent basename a ->
  ~ In "" (Gui.input_files a) ->
  StronglySorted lt selected_indices ->
  Forall (fun i => (i < length (Gui.file_listbox a))%nat) selected_indices ->
  exists a',
    Gui.remove_selected_files basename selected_indices a = (Ret tt, a') /\
    Gui.consistent basename a' /\
    length (Gui.input_files a)
      = (length (Gui.input_files a') + length selected_indices)%nat /\
    length (Gui.file_listbox a)
      = (length (Gui.file_listbox a') + length selected_indices)%nat /\
    incl (Gui.input_files a') (Gui.input_files a).
Proof.
  intros Hcons Hne Hsorted Hvalid.
  destruct selected_indices as [| i rest].
  - eexists. split; [reflexivity |]. cbn. repeat split; try apply Hcons; try lia.
    intros x Hx; exact Hx.
  - unfold Gui.remove_selected_files.
    destruct (remove_rows_in_step (rev (i :: rest)) a (conj Hcons Hne))
      as (files & listbox & -> & [Hcons' _] & Hlen & Hlenf & Hincl).
    { now apply ascending_rev. }
    rewrite length_rev in Hlen, Hlenf.
    eexists. split; [reflexivity |].
    cbn [Gui.input_files Gui.file_listbox Gui.set_files].
    auto.
Qed.

Lemma listbox_delete_middle (pre post : list string) (x : string) :
  Gui.listbox_delete (length pre) (pre ++ x :: post) = (pre ++ post)%list.
Proof. induction pre as [| y pre IH]; cbn; [reflexivity | now rewrite IH]. Qed.

Lemma find_skip (f : string -> bool) (pre l : list string) :
  (forall q, In q pre -> f q = false) -> find f (pre ++ l) = find f l.
Proof.
  induction pre as [| y pre IH]; intros H; cbn; [reflexivity |].
  rewrite (H y (or_introl eq_refl)). apply IH. intros q Hq. apply H. now right.
Qed.

Lemma list_remove_middle (p : string) (pre post : list string) :
  ~ In p pre -> Gui.list_remove p (pre ++ p :: post) = Some (pre ++ post)%list.
Proof.
  induction pre as [| y pre IH]; intros H; cbn.
  - now rewrite String.eqb_refl.
  - destruct (p =? y)%string eqn:Hpy.
    + apply String.eqb_eq in Hpy. subst y. elim H. now left.
    + rewrite IH; [reflexivity |]. intros Hin. apply H. now right.
Qed.

(** X14: rows are matched to queued files by base name, first match first.
    When two queued files share a base name and the row of the later one
    is selected, it is the earlier file that leaves the queue: the
    selected file stays queued, and the list box, which lost the selected
    row, shows the remaining names in another order than the queue. *)
Theorem remove_takes_first_namesake (pre mid post : list string)
        (p1 p2 : string) (a : Gui.PdfConverterApp) :
  Gui.input_files a = (pre ++ p1 :: mid ++ p2 :: post)%list ->
  Gui.file_listbox a = map basename (Gui.input_files a) ->
  basename p2 = basename p1 ->
  (forall q, In q pre -> basename q <> basename p1) ->
  p1 <> "" ->
  exists a',
    Gui.remove_selected_files basename [(length pre + S (length mid))%nat] a
      = (Ret tt, a') /\
    Gui.input_files a' = (pre ++ mid ++ p2 :: post)%list /\
    Gui.file_listbox a' = map basename (pre ++ p1 :: mid ++ post)%list.
Proof.
  intros Hfiles Hrows Hsame Hpre Hne.
  cbn [Gui.remove_selected_files rev List.app Gui.remove_rows].
  unfold bind, Gui.remove_row, ret. cbv beta zeta.
  assert (Hsplit : Gui.input_files a = ((pre ++ p1 :: mid) ++ p2 :: post)%list).
  { rewrite Hfiles, <- app_assoc. reflexivity. }
  assert (Hidx : (length pre + S (length mid))%nat = length (map basename (pre ++ p1 :: mid))).
  { rewrite length_map, length_app. reflexivity. }
  assert (Hrows' : Gui.file_listbox a
                   = (map basename (pre ++ p1 :: mid)
                        ++ basename p2 :: map basename post)%list).
  { rewrite Hrows, Hsplit, map_app. reflexivity. }
  assert (Hget : Gui.listbox_get (length pre + S (length mid)) (Gui.file_listbox a)
                 = basename p1).
  { rewrite Hrows', Hidx. unfold Gui.listbox_get.
    rewrite nth_middle. exact Hsame. }
  rewrite Hget.
  assert (Hfind : find (fun path => (basename path =? basename p1)%string)
                       (Gui.input_files a) = Some p1).
  { rewrite Hfiles, find_skip.
    - cbn. now rewrite String.eqb_refl.
    - intros q Hq. apply String.eqb_neq. now apply Hpre. }
  rewrite Hfind.
  assert (Htruthy : truthy p1 = true).
  { unfold truthy. apply negb_true_iff. now apply String.eqb_neq. }
  rewrite Htruthy, Hfiles, list_remove_middle.
  2:{ intros Hin. now apply (Hpre p1 Hin). }
  eexists. split; [reflexivity |].
  cbn [Gui.input_files Gui.file_listbox Gui.set_files].
  split; [reflexivity |].
  rewrite Hrows', Hidx, listbox_delete_middle.
  rewrite <- map_app, <- app_assoc. reflexivity.
Qed.

End FileList.

Section ConversionRun.

Variable E : environment.
Variables dirname basename abspath : string -> string.
Variable join : string -> string -> string.

(** The ways [start_conversion_thread] ends. *)
Lemma start_cases (a : Gui.PdfConverterApp) :
  exists started a' evs,
    Gui.start_conversion_thread E a = (Ret started, a') /\
    log (Gui.desktop a') = (log (Gui.desktop a) ++ evs)%list /\
    Gui.input_files a' = Gui.input_files a /\
    Gui.after_calls a' = Gui.after_calls a /\
    match started with
    | Some (files, output_directory) =>
        files = Gui.input_files a /\ files <> [] /\
        output_directory = Gui.output_dir a /\ output_directory <> "" /\
        mem output_directory (fs (Gui.desktop a')) = true /\
        Gui.convert_button a' = Gui.DISABLED /\
        Gui.result_text a' = "--- 변환 시작 ---" ++ Gui.newline /\
        Gui.result_state a' = Gui.DISABLED /\
        Gui.dialogs a' = Gui.dialogs a /\
        (evs = [] \/ evs = [EvMakedirs output_directory false None])
    | None =>
        Gui.convert_button a' = Gui.convert_button a /\
        Gui.result_text a' = Gui.result_text a /\
        (exists d, Gui.dialogs a' = (Gui.dialogs a ++ [d])%list) /\
        (evs = [] \/
         exists text,
           evs = [EvMakedirs (Gui.output_dir a) false (Some (OSError text))])
    end.
Proof.
  unfold Gui.start_conversion_thread.
  destruct (Gui.input_files a) as [| file files] eqn:Hfiles.
  { do 3 eexists. split; [reflexivity |]. cbn.
    split; [symmetry; apply app_nil_r |]. repeat split; eauto. }
  destruct (truthy (Gui.output_dir a)) eqn:Hout; cbn [negb].
  2:{ do 3 eexists. split; [reflexivity |]. cbn.
      split; [symmetry; apply app_nil_r |]. repeat split; eauto. }
  assert (Hne : Gui.output_dir a <> "").
  { unfold truthy in Hout. apply negb_true_iff in Hout.
    now apply String.eqb_neq. }
  unfold bind, Gui.on_desktop, path_exists, try_except, makedirs, ret,
    Gui.widgets.
  destruct (mem (Gui.output_dir a) (fs (Gui.desktop a))) eqn:Hthere;
    cbn [negb].
  - cbn. do 3 eexists. split; [reflexivity |]. cbn.
    split; [symmetry; apply app_nil_r |].
    repeat split; auto; try discriminate. congruence.
  - cbn. destruct (makedirs_error E _ _ false) as [text |]; cbn.
    + do 3 eexists. split; [reflexivity |]. cbn.
      split; [reflexivity |]. repeat split; eauto.
    + do 3 eexists. split; [reflexivity |]. cbn.
      split; [reflexivity |].
      repeat split; auto; try discriminate; try congruence.
      unfold mem. cbn. now rewrite String.eqb_refl.
Qed.

(** X15: [start_conversion_thread] starts a conversion only with a
    non-empty queue and a non-empty output folder that exists when the
    thread starts; it passes the thread the queue as it is and that
    folder, disables the button and leaves nothing in the result area but
    the start line, the notice of a newly created folder included.  In
    every other case it shows exactly one dialog, starts nothing and
    leaves button and result area alone.  It never calls the automation
    surface and calls [os.makedirs] at most once. *)
Theorem conversion_starts_guarded (a : Gui.PdfConverterApp) :
  exists started a' evs,
    Gui.start_conversion_thread E a = (Ret started, a') /\
    log (Gui.desktop a') = (log (Gui.desktop a) ++ evs)%list /\
    (length evs <= 1)%nat /\ Trace.never Trace.is_com evs /\
    match started with
    | Some (files, output_directory) =>
        files = Gui.input_files a /\ files <> [] /\
        output_directory = Gui.output_dir a /\ output_directory <> "" /\
        mem output_directory (fs (Gui.desktop a')) = true /\
        Gui.convert_button a' = Gui.DISABLED /\
        Gui.result_text a' = "--- 변환 시작 ---" ++ Gui.newline /\
        Gui.dialogs a' = Gui.dialogs a
    | None =>
        Gui.convert_button a' = Gui.convert_button a /\
        Gui.result_text a' = Gui.result_text a /\
        exists d, Gui.dialogs a' = (Gui.dialogs a ++ [d])%list
    end.
Proof.
  destruct (start_cases a) as (started & a' & evs & Hrun & Hlog & _ & _ & H).
  exists started, a', evs. split; [exact Hrun |]. split; [exact Hlog |].
  destruct started as [[files output_directory] |].
  - destruct H as (H1 & H2 & H3 & H4 & H5 & H6 & H7 & _ & H9 & [-> | ->]);
      (split; [cbn; lia |]); (split; [apply never_checked; reflexivity |]);
      auto 10.
  - destruct H as (H1 & H2 & H3 & [-> | [text ->]]);
      (split; [cbn; lia |]); (split; [apply never_checked; reflexivity |]);
      auto.
Qed.

(** The loop of [_run_conversion]. *)
Lemma convert_each_runs (output_directory : string) (total_files : nat)
      (files : list string) :
  forall (i : nat) (counts : nat * nat) (a : Gui.PdfConverterApp),
  exists s f a' evs,
    Gui.convert_each E dirname basename abspath join
                     output_directory total_files i files counts a
      = (Ret (s, f), a') /\
    (s + f = fst counts + snd counts + length files)%nat /\
    log (Gui.desktop a') = (log (Gui.desktop a) ++ evs)%list /\
    (forall p, mem p (fs (Gui.desktop a)) = true ->
               mem p (fs (Gui.desktop a')) = true) /\
    (output_directory <> "" ->
     mem output_directory (fs (Gui.desktop a)) = true ->
     Trace.never Order.is_makedirs evs) /\
    same_controls a a' /\
    match files with
    | [] => Gui.progress_bar a' = Gui.progress_bar a
    | _ :: _ =>
        Gui.progress_bar a' = Gui.Percent (i + length files) total_files
    end.
Proof.
  induction files as [| input_path rest IH]; intros i counts a;
    cbn [Gui.convert_each].
  - exists (fst counts), (snd counts), a, []. unfold ret.
    split; [now destruct counts |]. split; [cbn; lia |].
    split; [symmetry; apply app_nil_r |]. split; [auto |].
    split; [intros _ _ ev [] |].
    split; [unfold same_controls; auto 10 | reflexivity].
  - unfold bind at 1, Gui.widgets at 1.
    unfold bind at 1, Gui.on_desktop at 1.
    match goal with
    | |- context [convert_to_pdf _ _ _ _ _ ?p ?o ?w0] =>
        destruct (convert_in_existing_dir E dirname basename abspath join
                    p o w0)
          as (b & msg & w1 & evs1 & -> & Hlog1 & _ & Hfs1 & _ & _ & Hdir1)
    end.
    assert (Hstep :
      forall a1 c,
        Gui.desktop a1 = w1 ->
        same_controls a a1 ->
        (fst c + snd c = S (fst counts + snd counts))%nat ->
        exists s f a' evs,
          Gui.convert_each E dirname basename abspath join output_directory
                           total_files (S i) rest c
                           (Gui.set_progress (Gui.Percent (i + 1) total_files) a1)
            = (Ret (s, f), a') /\
          (s + f = fst counts + snd counts + length (input_path :: rest))%nat /\
          log (Gui.desktop a') = (log (Gui.desktop a) ++ evs)%list /\
          (forall p, mem p (fs (Gui.desktop a)) = true ->
                     mem p (fs (Gui.desktop a')) = true) /\
          (output_directory <> "" ->
           mem output_directory (fs (Gui.desktop a)) = true ->
           Trace.never Order.is_makedirs evs) /\
          same_controls a a' /\
          Gui.progress_bar a'
            = Gui.Percent (i + length (input_path :: rest)) total_files).
    { intros a1 c Hw Hsame1 Hc.
      destruct (IH (S i) c
                  (Gui.set_progress (Gui.Percent (i + 1) total_files) a1))
        as (s & f & a' & evs & Hrun & Hsum & Hlog & Hfs & Hdir & Hsame & Hprog).
      cbn [Gui.desktop Gui.set_progress] in Hlog, Hfs, Hdir.
      rewrite Hw in Hlog, Hfs, Hdir.
      cbn [Gui.desktop Gui.update_result_text Gui.text_config Gui.text_insert
           Gui.set_text Gui.result_state] in Hlog1, Hfs1, Hdir1.
      exists s, f, a', (evs1 ++ evs)%list.
      split; [exact Hrun |].
      split; [cbn [length]; lia |].
      split; [rewrite Hlog, Hlog1; now rewrite app_assoc |].
      split; [auto |].
      split.
      { intros Hne Hthere. apply never_app.
        - apply Hdir1. apply String.eqb_neq in Hne. now rewrite Hne.
        - apply Hdir; auto. }
      split.
      { unfold same_controls in *.
        cbn [Gui.input_files Gui.file_listbox Gui.output_dir
             Gui.convert_button Gui.dialogs Gui.after_calls
             Gui.set_progress] in Hsame.
        destruct Hsame as (H1 & H2 & H3 & H4 & H5 & H6).
        destruct Hsame1 as (G1 & G2 & G3 & G4 & G5 & G6).
        repeat split; congruence. }
      destruct rest as [| r rest'].
      - rewrite Hprog. cbn. f_equal; lia.
      - rewrite Hprog. cbn [length]. f_equal; lia. }
    destruct b; unfold bind, Gui.widgets, ret; cbv beta iota.
    + apply Hstep; [reflexivity | | cbn; lia].
      unfold same_controls. cbn. auto 10.
    + apply Hstep; [reflexivity | | cbn; lia].
      unfold same_controls. cbn. auto 10.
Qed.


(** X17: a conversion started from the window creates no directory while
    it runs.  The thread that [start_conversion_thread] starts finds the
    output folder in place for every file, so no [os.makedirs] call is
    made during [_run_conversion], the button stays disabled until the
    scheduled callback runs, and that callback enables it again. *)
Theorem started_run_makes_no_directory (a a1 : Gui.PdfConverterApp)
        (files : list string) (output_directory : string) :
  Gui.start_conversion_thread E a = (Ret (Some (files, output_directory)), a1) ->
  exists a2 evs,
    Gui._run_conversion E dirname basename abspath join
                        files output_directory a1 = (Ret tt, a2) /\
    log (Gui.desktop a2) = (log (Gui.desktop a1) ++ evs)%list /\
    Trace.never Order.is_makedirs evs /\
    Gui.convert_button a2 = Gui.DISABLED /\
    Gui.after_calls a2
      = (Gui.after_calls a ++ [Gui.enable_convert_button])%list /\
    Gui.convert_button (Gui._enable_convert_button a2) = Gui.NORMAL.
Proof.
  intros Hstart.
  destruct (start_cases a) as (started & a1' & evs0 & Hrun & _ & _ & Hafter & H).
  rewrite Hstart in Hrun. injection Hrun as <- <-.
  destruct H as (_ & _ & _ & Hne & Hthere & Hbutton & _).
  unfold Gui._run_conversion. unfold bind at 1, Gui.widgets at 1.
  unfold bind at 1.
  destruct (convert_each_runs output_directory (length files) files 0
              (0%nat, 0%nat) (Gui.set_progress Gui.Zero a1))
    as (s & f & a2 & evs & -> & _ & Hlog & _ & Hdir & Hsame & _).
  unfold bind, Gui.widgets. cbv beta iota.
  do 2 eexists. split; [reflexivity |].
  destruct Hsame as (_ & _ & _ & H4 & _ & H6).
  cbn in Hlog, Hdir, H4, H6 |- *.
  split; [exact Hlog |]. split; [now apply Hdir |].
  split; [congruence |]. split; [congruence | reflexivity].
Qed.

End ConversionRun.

(** ** The theorems at concrete inputs *)

Lemma excel_conversion_example :
  Sample.convert Sample.quiet "in\book.xlsx" "out"
                 (Sample.world_with [ "in\book.xlsx" ])
  = (Ret (true, "out\book.pdf"),
     {| fs := [ "C:\srv\out\book.pdf"; "out"; "in\book.xlsx" ];
        log := [ EvMakedirs "out" false None;
                 EvCom (CreateObject "Excel.Application") None;
                 EvCom (SetVisible "Excel.Application" false) None;
                 EvCom (Open "Excel.Application" "C:\srv\in\book.xlsx") None;
                 EvCom (ExportAsFixedFormat 0 "C:\srv\out\book.pdf" 0) None;
                 EvCom (Close "Excel.Application" (Some false)) None;
                 EvCom (Quit "Excel.Application") None ];
        background_tasks := [] |}).
Proof. reflexivity. Qed.



(** C5, counterexample: the subdirectory name contains [..] and [/], the job
    directory cannot be created, and the handler ends with the [OSError]
    of [os.makedirs], which is not an [HTTPException] with status 400. *)
Lemma traversal_server_error :
  has_traversal "../x" = true /\
  exists w',
    Sample.endpoint Sample.read_only [ {| filename := "a.docx" |} ]
                    (Some "../x") Sample.empty_world
      = (Raise (OSError "[WinError 5]"), w').
Proof. split; [reflexivity | eexists; lazy; reflexivity]. Qed.

(** C6, the failing request: the subdirectory name is the name of a file in
    [converted_pdfs].  The job directory is created, [os.makedirs] raises on
    the output directory, the handler ends with that [OSError], and the
    removal of the job directory was never handed to [background_tasks]. *)
Theorem cleanup_not_scheduled :
  exists w',
    Sample.endpoint Sample.report_is_a_file [ {| filename := "a.docx" |} ]
                    (Some "report.pdf")
                    (Sample.world_with [ "converted_pdfs\report.pdf" ])
      = (Raise (OSError "[WinError 183]"), w') /\
    mem "temp_uploads\0b0e7f0c" (fs w') = true /\
    background_tasks w' = [].
Proof. eexists. split; [lazy; reflexivity |]. split; reflexivity. Qed.

Lemma unsupported_rejected_early_witness :
  dict_mem (Str.lower (snd (ntpath.splitext "notes.TXT")))
           SUPPORTED_EXTENSIONS = false /\
  (forall output_path w,
      exists msg,
        Sample.convert Sample.quiet "notes.TXT" output_path w
          = (Ret (false, msg), w)) /\
  (forall temp_job_dir final_output_dir results file w,
      filename file = "notes.TXT" ->
      exists msg,
        handle_file Sample.quiet Sample.dirname Sample.basename
                    Sample.abspath Sample.join
                    temp_job_dir final_output_dir results file w
          = (Ret (results ++ [result_dict "notes.TXT" false msg])%list, w)).
Proof.
  split; [reflexivity |].
  apply (unsupported_rejected_early Sample.quiet Sample.dirname
           Sample.basename Sample.abspath Sample.join "notes.TXT").
  reflexivity.
Defined.

Lemma extension_case_insensitive_witness :
  In ".docx" (map fst SUPPORTED_EXTENSIONS) /\
  Str.eq_nocase (snd (ntpath.splitext "Report.DocX")) ".docx" = true /\
  dict_mem (Str.lower (snd (ntpath.splitext "Report.DocX")))
           SUPPORTED_EXTENSIONS = true.
Proof.
  assert (Hkey : In ".docx" (map fst SUPPORTED_EXTENSIONS)) by (cbn; tauto).
  split; [exact Hkey |]. split; [reflexivity |].
  apply (extension_case_insensitive Sample.quiet Sample.dirname
           Sample.basename Sample.abspath Sample.join
           "Report.DocX" ".docx" Hkey eq_refl).
Defined.

Lemma traversal_rejected_witness :
  In ".." [ "/"; "\"; ".." ] /\
  "../x" = "" ++ ".." ++ "/x" /\
  exists r w' evs,
    Sample.endpoint Sample.quiet [ {| filename := "a.docx" |} ]
                    (Some "../x") Sample.empty_world = (r, w') /\
    log w' = (log Sample.empty_world ++ evs)%list /\
    Trace.never Trace.is_write_upload evs /\
    Trace.never Trace.is_com evs /\
    (Trace.never Trace.makedirs_raised evs ->
     exists detail, r = Raise (HTTPException 400 detail)).
Proof.
  assert (Hc : In ".." [ "/"; "\"; ".." ]) by (cbn; tauto).
  split; [exact Hc |]. split; [reflexivity |].
  apply (traversal_rejected Sample.quiet Sample.dirname Sample.basename
           Sample.abspath Sample.join [ {| filename := "a.docx" |} ]
           "../x" ".." "" "/x" Sample.empty_world Hc eq_refl).
Defined.




Lemma sample_join_not_empty (name : string) :
  Sample.join DEFAULT_OUTPUT_DIR name <> "".
Proof. discriminate. Qed.

Lemma request_creates_two_directories_witness :
  (forall name, Sample.join DEFAULT_OUTPUT_DIR name <> "") /\
  exists first rest,
    log (snd (Sample.endpoint Sample.quiet
                [ {| filename := "a.docx" |}; {| filename := "b.XLS" |} ]
                (Some "batch7") Sample.empty_world))
      = (log Sample.empty_world ++ first ++ rest)%list /\
    (length first <= 2)%nat /\
    Forall (fun ev => exists name raised, ev = EvMakedirs name true raised)
           first /\
    Trace.never Order.is_makedirs rest.
Proof.
  split; [exact sample_join_not_empty |].
  apply (request_creates_two_directories Sample.quiet Sample.dirname
           Sample.basename Sample.abspath Sample.join
           [ {| filename := "a.docx" |}; {| filename := "b.XLS" |} ]
           (Some "batch7") Sample.empty_world sample_join_not_empty).
Defined.

Lemma success_message_is_pdf_path_witness :
  (forall name, Sample.join DEFAULT_OUTPUT_DIR name <> "") /\
  exists response w',
    Sample.endpoint Sample.quiet [ {| filename := "a.docx" |} ]
                    (Some "batch7") Sample.empty_world = (Ret response, w') /\
    Forall2
      (fun file record =>
         dict_get record "success" = Some (VBool true) ->
         dict_get record "message"
           = Some (VStr (pdf_of_upload Sample.basename Sample.join
                           (Sample.join TEMP_UPLOAD_DIR
                              (uuid4 Sample.quiet (log Sample.empty_world)))
                           (final_dir Sample.join (Some "batch7")) file)))
      [ {| filename := "a.docx" |} ] (conversion_results response).
Proof.
  split; [exact sample_join_not_empty |].
  do 2 eexists. split; [lazy; reflexivity |].
  eapply (success_message_is_pdf_path Sample.quiet Sample.dirname
            Sample.basename Sample.abspath Sample.join
            [ {| filename := "a.docx" |} ] (Some "batch7")
            Sample.empty_world _ _ sample_join_not_empty).
  vm_compute. reflexivity.
Defined.

Lemma unsupported_only_request_witness :
  Forall unsupported [ {| filename := "notes.txt" |}; {| filename := "a.pdf" |} ] /\
  exists r w' evs,
    Sample.endpoint Sample.quiet
                    [ {| filename := "notes.txt" |}; {| filename := "a.pdf" |} ]
                    None Sample.empty_world = (r, w') /\
    log w' = (log Sample.empty_world ++ evs)%list /\
    forallb Order.is_makedirs evs = true /\
    (forall response,
        r = Ret response ->
        length (conversion_results response) = 2%nat /\
        Forall (fun record => dict_get record "success" = Some (VBool false))
               (conversion_results response)).
Proof.
  assert (H : Forall unsupported
                [ {| filename := "notes.txt" |}; {| filename := "a.pdf" |} ])
    by (repeat constructor).
  split; [exact H |].
  apply (unsupported_only_request Sample.quiet Sample.dirname Sample.basename
           Sample.abspath Sample.join _ None Sample.empty_world H).
Defined.


Lemma fresh_consistent (w : world) :
  Gui.consistent Sample.basename (GuiSample.fresh w).
Proof. split; cbn; constructor. Qed.

Lemma select_files_keeps_consistent_witness :
  Gui.consistent Sample.basename (GuiSample.fresh Sample.empty_world) /\
  Gui.input_files
    (Gui.select_files Sample.basename
       [ "C:\docs\a.docx"; "C:\docs\b.xls"; "C:\docs\a.docx" ]
       (GuiSample.fresh Sample.empty_world))
  = [ "C:\docs\a.docx"; "C:\docs\b.xls" ] /\
  Gui.consistent Sample.basename
    (Gui.select_files Sample.basename
       [ "C:\docs\a.docx"; "C:\docs\b.xls"; "C:\docs\a.docx" ]
       (GuiSample.fresh Sample.empty_world)).
Proof.
  split; [apply fresh_consistent |]. split; [reflexivity |].
  apply (select_files_keeps_consistent Sample.basename
           [ "C:\docs\a.docx"; "C:\docs\b.xls"; "C:\docs\a.docx" ]
           (GuiSample.fresh Sample.empty_world)
           (fresh_consistent Sample.empty_world)).
Defined.

Lemma queued_consistent :
  Gui.consistent Sample.basename
    (GuiSample.queued [ "C:\docs\a.docx"; "C:\docs\b.xls"; "D:\c.pptx" ]
                      "out" Sample.empty_world) /\
  ~ In "" (Gui.input_files
             (GuiSample.queued [ "C:\docs\a.docx"; "C:\docs\b.xls"; "D:\c.pptx" ]
                               "out" Sample.empty_world)).
Proof.
  split; [split |].
  - cbn. repeat constructor; cbn; intuition discriminate.
  - cbn. reflexivity.
  - cbn. intuition discriminate.
Qed.

Lemma remove_keeps_consistent_witness :
  StronglySorted lt [ 0%nat; 2%nat ] /\
  exists a',
    Gui.remove_selected_files Sample.basename [ 0%nat; 2%nat ]
      (GuiSample.queued [ "C:\docs\a.docx"; "C:\docs\b.xls"; "D:\c.pptx" ]
                        "out" Sample.empty_world) = (Ret tt, a') /\
    Gui.consistent Sample.basename a' /\
    Gui.input_files a' = [ "C:\docs\b.xls" ].
Proof.
  assert (Hs : StronglySorted lt [ 0%nat; 2%nat ]).
  { repeat constructor. }
  split; [exact Hs |].
  destruct (remove_keeps_consistent Sample.basename [ 0%nat; 2%nat ]
              (GuiSample.queued [ "C:\docs\a.docx"; "C:\docs\b.xls"; "D:\c.pptx" ]
                                "out" Sample.empty_world)
              (proj1 queued_consistent) (proj2 queued_consistent) Hs)
    as (a' & Hrun & Hcons & _).
  { repeat constructor. }
  exists a'. split; [exact Hrun |]. split; [exact Hcons |].
  vm_compute in Hrun. injection Hrun as <-. reflexivity.
Defined.

Lemma remove_takes_first_namesake_witness :
  exists a',
    Gui.remove_selected_files Sample.basename [ 2%nat ]
      (GuiSample.queued [ "C:\a\plan.docx"; "C:\a\cost.xls"; "D:\b\plan.docx" ]
                        "out" Sample.empty_world) = (Ret tt, a') /\
    Gui.input_files a' = [ "C:\a\cost.xls"; "D:\b\plan.docx" ] /\
    Gui.file_listbox a' = [ "plan.docx"; "cost.xls" ].
Proof.
  apply (remove_takes_first_namesake Sample.basename
           [] [ "C:\a\cost.xls" ] [] "C:\a\plan.docx" "D:\b\plan.docx"
           (GuiSample.queued
              [ "C:\a\plan.docx"; "C:\a\cost.xls"; "D:\b\plan.docx" ]
              "out" Sample.empty_world)).
  - reflexivity.
  - reflexivity.
  - reflexivity.
  - intros q [].
  - discriminate.
Defined.

Lemma started_run_makes_no_directory_witness :
  exists a1 a2 evs,
    Gui.start_conversion_thread Sample.quiet
      (GuiSample.queued [ "in\book.xlsx" ] "out"
                        (Sample.world_with [ "in\book.xlsx" ]))
      = (Ret (Some ([ "in\book.xlsx" ], "out")), a1) /\
    Gui._run_conversion Sample.quiet Sample.dirname Sample.basename
                        Sample.abspath Sample.join
                        [ "in\book.xlsx" ] "out" a1 = (Ret tt, a2) /\
    log (Gui.desktop a2) = (log (Gui.desktop a1) ++ evs)%list /\
    Trace.never Order.is_makedirs evs /\
    Gui.convert_button a2 = Gui.DISABLED.
Proof.
  eexists.
  assert (Hstart :
    Gui.start_conversion_thread Sample.quiet
      (GuiSample.queued [ "in\book.xlsx" ] "out"
                        (Sample.world_with [ "in\book.xlsx" ]))
    = (Ret (Some ([ "in\book.xlsx" ], "out")),
       snd (Gui.start_conversion_thread Sample.quiet
              (GuiSample.queued [ "in\book.xlsx" ] "out"
                                (Sample.world_with [ "in\book.xlsx" ])))))
    by (vm_compute; reflexivity).
  destruct (started_run_makes_no_directory Sample.quiet Sample.dirname
              Sample.basename Sample.abspath Sample.join _ _ _ _ Hstart)
    as (a2 & evs & Hrun & Hlog & Hnever & Hbutton & _).
  exists a2, evs. split; [exact Hstart |]. auto.
Defined.
